(** * FREET: the two [/api/chat] translation handlers

    A shallow embedding of the two Cloudflare Pages Functions of the
    repository:

    - [functions/api/chat.js], the bidirectional handler (module [Chat]);
    - the single-direction handler (module [Single]), a second file of the
      repository that exports the same [onRequest].

    Both are one [async] function: a method gate, a configuration gate and a
    [try] block that reads the request body, builds a prompt, calls the
    Gemini API once and unwraps its reply.  The platform (request body
    reader, [fetch], the JavaScript engine's own error texts) is a parameter
    of the model; the handlers are functions in a small monad that records
    the calls they make on the platform and carries a thrown value. *)

From Stdlib Require Import List NArith ZArith Bool String Ascii.
From Stdlib Require Decimal.
Import ListNotations.

Local Open Scope N_scope.
Local Open Scope list_scope.

(** ** JavaScript strings

    A JavaScript string is a sequence of 16-bit code units. *)

Definition jsstring : Type := list N.

Definition LF : N := 10.
Definition QUOTE : N := 34.

(** Source literals are written as Rocq strings (UTF-8 bytes) and decoded
    into UTF-16 code units here. *)
Fixpoint utf16_of_utf8 (bs : list N) : jsstring :=
  match bs with
  | [] => []
  | b :: r1 =>
      if b <? 128 then b :: utf16_of_utf8 r1
      else if b <? 224 then
        match r1 with
        | c1 :: r2 =>
            N.lor (N.shiftl (N.land b 31) 6) (N.land c1 63) :: utf16_of_utf8 r2
        | _ => []
        end
      else if b <? 240 then
        match r1 with
        | c1 :: c2 :: r3 =>
            N.lor (N.shiftl (N.land b 15) 12)
              (N.lor (N.shiftl (N.land c1 63) 6) (N.land c2 63))
            :: utf16_of_utf8 r3
        | _ => []
        end
      else
        match r1 with
        | c1 :: c2 :: c3 :: r4 =>
            let cp :=
              N.lor (N.shiftl (N.land b 7) 18)
                (N.lor (N.shiftl (N.land c1 63) 12)
                   (N.lor (N.shiftl (N.land c2 63) 6) (N.land c3 63))) in
            let v := cp - 65536 in
            (55296 + N.shiftr v 10) :: (56320 + N.land v 1023)
            :: utf16_of_utf8 r4
        | _ => []
        end
  end.

Definition js (s : string) : jsstring :=
  utf16_of_utf8 (map N_of_ascii (list_ascii_of_string s)).

Definition jsstring_eqb (a b : jsstring) : bool :=
  if list_eq_dec N.eq_dec a b then true else false.

(** [String.prototype.trim]: the code units of ECMAScript's WhiteSpace and
    LineTerminator productions are removed from both ends. *)
Definition is_white_space (c : N) : bool :=
  (c =? 9) || (c =? 10) || (c =? 11) || (c =? 12) || (c =? 13) || (c =? 32)
  || (c =? 160) || (c =? 5760) || ((8192 <=? c) && (c <=? 8202))
  || (c =? 8232) || (c =? 8233) || (c =? 8239) || (c =? 8287)
  || (c =? 12288) || (c =? 65279).

Fixpoint trimStart (s : jsstring) : jsstring :=
  match s with
  | c :: r => if is_white_space c then trimStart r else s
  | [] => []
  end.

Definition trimEnd (s : jsstring) : jsstring := rev (trimStart (rev s)).

Definition trim (s : jsstring) : jsstring := trimEnd (trimStart s).

(** Decimal digits of a number, as [Number::toString] prints an integer. *)
Fixpoint digits (u : Decimal.uint) : jsstring :=
  match u with
  | Decimal.Nil => []
  | Decimal.D0 r => 48 :: digits r
  | Decimal.D1 r => 49 :: digits r
  | Decimal.D2 r => 50 :: digits r
  | Decimal.D3 r => 51 :: digits r
  | Decimal.D4 r => 52 :: digits r
  | Decimal.D5 r => 53 :: digits r
  | Decimal.D6 r => 54 :: digits r
  | Decimal.D7 r => 55 :: digits r
  | Decimal.D8 r => 56 :: digits r
  | Decimal.D9 r => 57 :: digits r
  end.

Definition string_of_N (n : N) : jsstring := digits (N.to_uint n).

Definition string_of_Z (z : Z) : jsstring :=
  match z with
  | Z0 => [48]
  | Zpos p => digits (Pos.to_uint p)
  | Zneg p => 45 :: digits (Pos.to_uint p)
  end.

(** ** JavaScript values

    The values the handlers touch are the results of [JSON.parse] (through
    [request.json()] and [response.json()]) and [undefined].  A number is
    taken as an integer: the handlers only test it for zero and print it.
    An object keeps its fields in insertion order, as [JSON.stringify]
    prints them; a read takes the first binding of a key. *)

#[local] Set Warnings "-register-all".

Inductive JSON : Type :=
| JNull
| JBool (b : bool)
| JNumber (n : Z)
| JString (s : jsstring)
| JArray (items : list JSON)
| JObject (fields : list (jsstring * JSON)).

(** [None] is [undefined]. *)
Definition value : Type := option JSON.
Definition undefined : value := None.

(** ToBoolean. *)
Definition truthy (v : value) : bool :=
  match v with
  | None => false
  | Some JNull => false
  | Some (JBool b) => b
  | Some (JNumber n) => negb (n =? 0)%Z
  | Some (JString s) => match s with [] => false | _ => true end
  | Some (JArray _) => true
  | Some (JObject _) => true
  end.

(** [v === undefined || v === null], the test of [?.]. *)
Definition nullish (v : value) : bool :=
  match v with
  | None => true
  | Some JNull => true
  | _ => false
  end.

(** [v === 'lit'] against a string literal. *)
Definition strict_eq_string (v : value) (lit : jsstring) : bool :=
  match v with
  | Some (JString s) => jsstring_eqb s lit
  | _ => false
  end.

(** The property names the two handlers read with [.name]; none of them is
    a built-in property of arrays, strings, numbers or booleans. *)
Inductive PropName : Type :=
| p_text | p_mode | p_candidates | p_content | p_parts | p_error | p_message.

Definition prop_key (p : PropName) : jsstring :=
  match p with
  | p_text => js "text"
  | p_mode => js "mode"
  | p_candidates => js "candidates"
  | p_content => js "content"
  | p_parts => js "parts"
  | p_error => js "error"
  | p_message => js "message"
  end.

Inductive Key : Type :=
| Name (p : PropName)
| Index (i : nat).

Fixpoint assoc (k : jsstring) (fields : list (jsstring * JSON)) : value :=
  match fields with
  | [] => None
  | (k', v) :: r => if jsstring_eqb k k' then Some v else assoc k r
  end.

(** The property read [o[k]] / [o.k] on a value that is neither
    [undefined] nor [null]. *)
Definition own_property (o : JSON) (k : Key) : value :=
  match o, k with
  | JObject fields, Name p => assoc (prop_key p) fields
  | JObject fields, Index i => assoc (string_of_N (N.of_nat i)) fields
  | JArray items, Index i => nth_error items i
  | JString s, Index i =>
      match nth_error s i with
      | Some c => Some (JString [c])
      | None => None
      end
  | _, _ => None
  end.

(** ** Thrown values

    Everything the handlers can throw or catch is an [Error] object; only
    its [name] and [message] are observed. *)

Record exn : Type := mkExn { name : jsstring; message : jsstring }.

Definition Error (msg : jsstring) : exn := mkExn (js "Error") msg.
Definition TypeError (msg : jsstring) : exn := mkExn (js "TypeError") msg.

(** ** The platform *)

Record UpstreamResponse : Type := mkUpstream {
  up_status : N;
  up_statusText : jsstring;
  (** outcome of [apiResponse.json()] *)
  up_json : exn + JSON
}.

(** [Response.ok]: the status is in the range 200-299. *)
Definition ok (r : UpstreamResponse) : bool :=
  (200 <=? up_status r) && (up_status r <=? 299).

Record FetchInit : Type := mkInit {
  init_method : jsstring;
  init_headers : list (jsstring * jsstring);
  (** the value handed to [JSON.stringify] *)
  init_body : JSON
}.

Record Runtime : Type := mkRuntime {
  (** outcome of [fetch(url, init)]: a rejection or a response *)
  fetch : jsstring -> FetchInit -> exn + UpstreamResponse;
  (** the engine's message for reading a property, given by its name, of
      [undefined] or [null] *)
  cannot_read : value -> jsstring -> jsstring;
  (** the engine's message for calling a property that is not a function *)
  not_a_function : jsstring -> jsstring;
  (** the engine's message when an object has no primitive value *)
  cannot_convert : jsstring
}.

Record Request : Type := mkRequest {
  method : jsstring;
  (** outcome of [request.json()] *)
  json : exn + JSON
}.

Record Env : Type := mkEnv { GEMINI_API_KEY : option jsstring }.

Record Context : Type := mkContext { request : Request; env : Env }.

Inductive Body : Type :=
| BodyText (s : jsstring)
(** [JSON.stringify] of the value *)
| BodyJSON (v : JSON).

Record Response : Type := mkResponse {
  body : Body;
  status : N;
  (** the [headers] option handed to [new Response]; a content type the
      runtime adds by itself for a string body is no part of it *)
  headers : list (jsstring * jsstring)
}.

(** ** The handler monad

    A computation yields the calls it made on the platform, in order, and
    either a thrown value or a result. *)

Inductive LogArg : Type :=
| LogValue (v : JSON)
| LogError (e : exn).

Inductive Event : Type :=
| ReadRequestBody
| FetchCall (url : jsstring) (init : FetchInit)
| ReadUpstreamBody
| ConsoleError (label : jsstring) (arg : LogArg)
| ConsoleWarn (label : jsstring) (arg : LogArg).

Definition M (A : Type) : Type := (list Event * (exn + A))%type.

Definition ret {A} (a : A) : M A := ([], inr a).
Definition throw {A} (e : exn) : M A := ([], inl e).
Definition lift {A} (r : exn + A) : M A := ([], r).
Definition emit (ev : Event) : M unit := ([ev], inr tt).

Definition bind {A B} (m : M A) (k : A -> M B) : M B :=
  match m with
  | (t, inl e) => (t, inl e)
  | (t, inr a) => let (t', r) := k a in (t ++ t', r)
  end.

(** [try { m } catch (error) { h error }] *)
Definition try_catch {A} (m : M A) (h : exn -> M A) : M A :=
  match m with
  | (t, inl e) => let (t', r) := h e in (t ++ t', r)
  | (t, inr a) => (t, inr a)
  end.

(** [m], after the calls [t]. *)
Definition after {A} (t : list Event) (m : M A) : M A :=
  (t ++ fst m, snd m).

Declare Scope js_scope.
Delimit Scope js_scope with js.
Notation "x <- m ;; k" := (bind m (fun x => k))
  (at level 100, m at next level, right associativity) : js_scope.
Notation "m ;;; k" := (bind m (fun _ => k))
  (at level 100, k at level 200, right associativity) : js_scope.
Local Open Scope js_scope.

(** [a && b] *)
Definition and_then (a b : M value) : M value :=
  x <- a ;; if truthy x then b else ret x.

(** [a || b] *)
Definition or_else (a b : M value) : M value :=
  x <- a ;; if truthy x then ret x else b.

Notation "a &&& b" := (and_then a b)
  (at level 40, left associativity) : js_scope.

(** ** Built-in operations that can throw *)

Definition key_text (k : Key) : jsstring :=
  match k with
  | Name p => prop_key p
  | Index i => string_of_N (N.of_nat i)
  end.

Section Engine.

Variable rt : Runtime.

(** [v.name] and [v[i]]: a TypeError on [undefined] and [null]. *)
Definition get (v : value) (k : Key) : M value :=
  match v with
  | None => throw (TypeError (cannot_read rt v (key_text k)))
  | Some JNull => throw (TypeError (cannot_read rt v (key_text k)))
  | Some o => ret (own_property o k)
  end.

(** ToString, as a template literal and [new Error(x)] apply it.  An array
    goes through [Array.prototype.join]; a parsed object prints as
    [[object Object]] unless an own, not callable [toString] field shadows
    [Object.prototype.toString], in which case no primitive is found. *)
Fixpoint to_string (v : JSON) : exn + jsstring :=
  match v with
  | JNull => inr (js "null")
  | JBool true => inr (js "true")
  | JBool false => inr (js "false")
  | JNumber n => inr (string_of_Z n)
  | JString s => inr s
  | JArray items =>
      (fix join (l : list JSON) : exn + jsstring :=
         match l with
         | [] => inr []
         | x :: r =>
             match (match x with JNull => inr [] | _ => to_string x end) with
             | inl e => inl e
             | inr s =>
                 match r with
                 | [] => inr s
                 | _ =>
                     match join r with
                     | inl e => inl e
                     | inr t => inr (s ++ 44 :: t)
                     end
                 end
             end
         end) items
  | JObject fields =>
      match assoc (js "toString") fields with
      | Some _ => inl (TypeError (cannot_convert rt))
      | None => inr (js "[object Object]")
      end
  end.

Definition to_string_value (v : value) : M jsstring :=
  match v with
  | None => ret (js "undefined")
  | Some x => lift (to_string x)
  end.

(** [new Error(x)] for a defined [x]. *)
Definition new_Error (x : value) : M exn :=
  m <- to_string_value x ;; ret (Error m).

(** [translation.trim()], [translation] being the variable of that name. *)
Definition call_trim (translation : value) : M jsstring :=
  match translation with
  | Some (JString s) => ret (trim s)
  | None => throw (TypeError (cannot_read rt translation (js "trim")))
  | Some JNull => throw (TypeError (cannot_read rt translation (js "trim")))
  | Some _ => throw (TypeError (not_a_function rt (js "translation.trim")))
  end.

(** [await context.request.json()] *)
Definition request_json (r : Request) : M JSON :=
  emit ReadRequestBody ;;; lift (json r).

(** [await fetch(url, init)] *)
Definition await_fetch (url : jsstring) (init : FetchInit) : M UpstreamResponse :=
  emit (FetchCall url init) ;;; lift (fetch rt url init).

(** [await apiResponse.json()] *)
Definition response_json (r : UpstreamResponse) : M JSON :=
  emit ReadUpstreamBody ;;; lift (up_json r).

End Engine.

(** ** What both handlers share, letter for letter *)

Definition application_json : list (jsstring * jsstring) :=
  [(js "Content-Type", js "application/json")].

(** [new Response(JSON.stringify(v), { status, headers })] *)
Definition json_response (v : JSON) (st : N) : Response :=
  mkResponse (BodyJSON v) st application_json.

Definition error_object (msg : jsstring) : JSON :=
  JObject [(js "error", JString msg)].

Definition translation_object (t : jsstring) : JSON :=
  JObject [(js "translation", JString t)].

Definition template_of_key (k : option jsstring) : jsstring :=
  match k with
  | Some s => s
  | None => js "undefined"
  end.

Definition geminiApiUrl (GEMINI_API_KEY : option jsstring) : jsstring :=
  js "https://generativelanguage.googleapis.com/v1beta/models/gemini-2.5-flash:generateContent?key="
  ++ template_of_key GEMINI_API_KEY.

Definition safety (category : string) : JSON :=
  JObject [(js "category", JString (js category));
           (js "threshold", JString (js "BLOCK_MEDIUM_AND_ABOVE"))].

Definition apiRequestBody (prompt : jsstring) : JSON :=
  JObject
    [(js "contents",
       JArray [JObject [(js "parts", JArray [JObject [(js "text", JString prompt)]])]]);
     (js "safetySettings",
       JArray [safety "HARM_CATEGORY_HARASSMENT";
               safety "HARM_CATEGORY_HATE_SPEECH";
               safety "HARM_CATEGORY_SEXUALLY_EXPLICIT";
               safety "HARM_CATEGORY_DANGEROUS_CONTENT"])].

Definition fetch_init (prompt : jsstring) : FetchInit :=
  mkInit (js "POST") application_json (apiRequestBody prompt).

Definition not_found : jsstring := js "Translation not found.".

(** The [catch (error)] block. *)
Definition catch_block (error : exn) : M Response :=
  emit (ConsoleError (js "Error in function:") (LogError error)) ;;;
  ret (json_response (error_object (message error)) 500).

Definition method_not_allowed : Response :=
  mkResponse (BodyText (js "Method Not Allowed")) 405 [].

(** ** [functions/api/chat.js]: the bidirectional handler *)

Module Chat.

(** The two prompt templates, [${inputText}] being [inputText]. *)
Definition toLeet_head : jsstring :=
  js "あなたはインターネットスラングの専門家です。以下の「英語」を、文脈を読み取りつつ、可能な限り「Leet語（1337 speak）」に翻訳してください。単なる文字の置き換え（A=4など）だけでなく、スラング（you=j00など）も使ってください。翻訳結果のテキストだけを返してください。"
  ++ [LF; LF] ++ js "英語: ".

Definition toLeet_tail : jsstring := [LF] ++ js "Leet語翻訳:".

Definition fromLeet_head : jsstring :=
  js "あなたはインターネットスラングの専門家です。以下の「Leet語（1337 speak）」を、文脈を推測して自然な「英語」に翻訳してください。翻訳結果のテキストだけを返してください。"
  ++ [LF; LF] ++ js "Leet語: ".

Definition fromLeet_tail : jsstring := [LF] ++ js "英語翻訳:".

Definition toLeet_prompt (inputText : jsstring) : jsstring :=
  toLeet_head ++ [QUOTE] ++ inputText ++ [QUOTE] ++ toLeet_tail.

Definition fromLeet_prompt (inputText : jsstring) : jsstring :=
  fromLeet_head ++ [QUOTE] ++ inputText ++ [QUOTE] ++ fromLeet_tail.

Section Handler.

Variable rt : Runtime.

(** [if (mode === 'toLeet') { prompt = ... } else { prompt = ... }] *)
Definition build_prompt (mode inputText : value) : M jsstring :=
  if strict_eq_string mode (js "toLeet") then
    s <- to_string_value rt inputText ;; ret (toLeet_prompt s)
  else
    s <- to_string_value rt inputText ;; ret (fromLeet_prompt s).

(** [if (!apiResponse.ok) { ... throw ... }] *)
Definition upstream_failure (apiResponse : UpstreamResponse) : M Response :=
  errorBody <- response_json apiResponse ;;
  emit (ConsoleError (js "Gemini API error:") (LogValue errorBody)) ;;;
  x <- or_else
         (error <- get rt (Some errorBody) (Name p_error) ;;
          if nullish error then ret undefined else get rt error (Name p_message))
         (ret (Some (JString (js "Gemini API error: "
                              ++ string_of_N (up_status apiResponse))))) ;;
  e <- new_Error rt x ;;
  throw e.

(** The guarded read of [candidates[0].content.parts[0].text]. *)
Definition extract (responseData : JSON) : M value :=
  let candidates := get rt (Some responseData) (Name p_candidates) in
  let candidates_0 := (c <- candidates ;; get rt c (Index 0)) in
  let content := (c <- candidates_0 ;; get rt c (Name p_content)) in
  let parts := (c <- content ;; get rt c (Name p_parts)) in
  let parts_0 := (p <- parts ;; get rt p (Index 0)) in
  let text := (p <- parts_0 ;; get rt p (Name p_text)) in
  found <- candidates &&& candidates_0 &&& content &&& parts &&& parts_0 &&& text ;;
  if truthy found then text
  else
    emit (ConsoleWarn (js "Unexpected Gemini response structure:")
            (LogValue responseData)) ;;;
    ret (Some (JString not_found)).

(** The rest of the [try] block, once [fetch] has resolved. *)
Definition relay (apiResponse : UpstreamResponse) : M Response :=
  if negb (ok apiResponse) then upstream_failure apiResponse
  else
    responseData <- response_json apiResponse ;;
    translation <- extract responseData ;;
    t <- call_trim rt translation ;;
    ret (json_response (translation_object t) 200).

(** The [try] block. *)
Definition try_block (context : Context) : M Response :=
  let GEMINI_API_KEY := GEMINI_API_KEY (env context) in
  requestData <- request_json (request context) ;;
  inputText <- get rt (Some requestData) (Name p_text) ;;
  mode <- get rt (Some requestData) (Name p_mode) ;;
  if negb (truthy inputText) || negb (truthy mode) then
    ret (json_response (error_object (js "No text or mode provided")) 400)
  else
    prompt <- build_prompt mode inputText ;;
    apiResponse <- await_fetch rt (geminiApiUrl GEMINI_API_KEY) (fetch_init prompt) ;;
    relay apiResponse.

Definition onRequest (context : Context) : M Response :=
  if negb (jsstring_eqb (method (request context)) (js "POST")) then
    ret method_not_allowed
  else if negb (truthy (option_map JString (GEMINI_API_KEY (env context)))) then
    ret (json_response
           (error_object (js "GEMINI_API_KEY is not set in Cloudflare")) 500)
  else try_catch (try_block context) catch_block.

End Handler.

End Chat.

(** ** The single-direction handler *)

Module Single.

Definition prompt_head : jsstring :=
  js "あなたはインターネットスラングの専門家です。以下の「Leet語（1337 speak）」を、文脈を推測して自然な英語に翻訳してください。翻訳結果だけを返してください。"
  ++ [LF; LF] ++ js "Leet語: ".

Definition prompt_tail : jsstring := [LF] ++ js "英語翻訳:".

Definition prompt_of (leetText : jsstring) : jsstring :=
  prompt_head ++ [QUOTE] ++ leetText ++ [QUOTE] ++ prompt_tail.

Section Handler.

Variable rt : Runtime.

(** [if (!apiResponse.ok) { throw new Error(...) }] *)
Definition upstream_failure (apiResponse : UpstreamResponse) : M Response :=
  throw (Error (js "Gemini API error: " ++ string_of_N (up_status apiResponse)
                ++ js " " ++ up_statusText apiResponse)).

(** [responseData.candidates[0]?.content?.parts[0]?.text || "Translation not found."] *)
Definition extract (responseData : JSON) : M value :=
  or_else
    (candidates <- get rt (Some responseData) (Name p_candidates) ;;
     candidates_0 <- get rt candidates (Index 0) ;;
     if nullish candidates_0 then ret undefined
     else
       content <- get rt candidates_0 (Name p_content) ;;
       if nullish content then ret undefined
       else
         parts <- get rt content (Name p_parts) ;;
         parts_0 <- get rt parts (Index 0) ;;
         if nullish parts_0 then ret undefined
         else get rt parts_0 (Name p_text))
    (ret (Some (JString not_found))).

(** The rest of the [try] block, once [fetch] has resolved. *)
Definition relay (apiResponse : UpstreamResponse) : M Response :=
  if negb (ok apiResponse) then upstream_failure apiResponse
  else
    responseData <- response_json apiResponse ;;
    translation <- extract responseData ;;
    t <- call_trim rt translation ;;
    ret (json_response (translation_object t) 200).

(** The [try] block. *)
Definition try_block (context : Context) : M Response :=
  let GEMINI_API_KEY := GEMINI_API_KEY (env context) in
  requestData <- request_json (request context) ;;
  leetText <- get rt (Some requestData) (Name p_text) ;;
  if negb (truthy leetText) then
    ret (json_response (error_object (js "No text provided")) 400)
  else
    s <- to_string_value rt leetText ;;
    let prompt := prompt_of s in
    apiResponse <- await_fetch rt (geminiApiUrl GEMINI_API_KEY) (fetch_init prompt) ;;
    relay apiResponse.

Definition onRequest (context : Context) : M Response :=
  if negb (jsstring_eqb (method (request context)) (js "POST")) then
    ret method_not_allowed
  else if negb (truthy (option_map JString (GEMINI_API_KEY (env context)))) then
    ret (json_response (error_object (js "GEMINI_API_KEY is not set")) 500)
  else try_catch (try_block context) catch_block.

End Handler.

End Single.

(** ** The nested path, read without throwing

    [lookup] is the property read that yields [undefined] where the base
    has no such property or is itself [undefined] or [null]; [nested_text]
    follows [candidates[0].content.parts[0].text] with it.  These are the
    words of the interface contract, not of the handlers. *)

Definition lookup (v : value) (k : Key) : value :=
  match v with
  | Some o => own_property o k
  | None => None
  end.

Definition text_path : list Key :=
  [Name p_candidates; Index 0; Name p_content; Name p_parts; Index 0;
   Name p_text].

Definition nested_text (responseData : JSON) : value :=
  fold_left lookup text_path (Some responseData).

(** [errorBody.error?.message], read without throwing. *)
Definition error_message (errorBody : JSON) : value :=
  lookup (lookup (Some errorBody) (Name p_error)) (Name p_message).

(** A POST request with a parsed body, the API key being configured. *)
Definition post (GEMINI_API_KEY : jsstring) (requestData : JSON) : Context :=
  mkContext (mkRequest (js "POST") (inr requestData))
            (mkEnv (Some GEMINI_API_KEY)).

(** A sample platform: the wording of V8's messages, and an upstream that
    gives one fixed outcome. *)
Definition v8 (outcome : exn + UpstreamResponse) : Runtime :=
  mkRuntime
    (fun _ _ => outcome)
    (fun v k =>
       js "Cannot read properties of "
       ++ (match v with None => js "undefined" | Some _ => js "null" end)
       ++ js " (reading '" ++ k ++ js "')")
    (fun e => e ++ js " is not a function")
    (js "Cannot convert object to primitive value").

(** ** Sample exchanges *)

Definition sample_key : jsstring := js "k3y".

Definition SyntaxError (msg : jsstring) : exn := mkExn (js "SyntaxError") msg.

Definition request_of (text mode : string) : JSON :=
  JObject [(js "text", JString (js text)); (js "mode", JString (js mode))].

(** [{ candidates: [ { content: { parts: [ { text } ] } } ] }] *)
Definition reply_of (text : jsstring) : JSON :=
  JObject [(js "candidates",
    JArray [JObject [(js "content",
      JObject [(js "parts", JArray [JObject [(js "text", JString text)]])])]])].

Definition success (responseData : JSON) : UpstreamResponse :=
  mkUpstream 200 (js "OK") (inr responseData).

Definition quota_exceeded : UpstreamResponse :=
  mkUpstream 429 (js "Too Many Requests")
    (inr (JObject [(js "error",
       JObject [(js "message", JString (js "quota exceeded"))])])).

(** ** Traces

    The console calls of a trace are told apart from the calls that reach
    the request, the network or the upstream body. *)

Definition is_console (ev : Event) : bool :=
  match ev with
  | ConsoleError _ _ => true
  | ConsoleWarn _ _ => true
  | _ => false
  end.

Definition console_only (t : list Event) : Prop :=
  Forall (fun ev => is_console ev = true) t.

(** A computation that only logs. *)
Definition logs_only {A} (m : M A) : Prop := console_only (fst m).

(** The numbers that a value prints when it is converted to a string (its
    own, and those of the arrays in it) are safe integers: below 2^53 in
    magnitude.  Such a number is the double that [JSON.parse] gives for it,
    and [Number::toString] prints it in plain decimal, as [string_of_Z]
    does; past that range a double is rounded and, from 10^21 on, printed
    with an exponent, which [JNumber] and [string_of_Z] do not follow. *)
Fixpoint safe_numbers (v : JSON) : bool :=
  match v with
  | JNumber n => (Z.abs n <? 2 ^ 53)%Z
  | JArray items => forallb safe_numbers items
  | _ => true
  end.

(** The white space test at the two ends of a string. *)
Definition trimmed (s : jsstring) : Prop :=
  (forall c, hd_error s = Some c -> is_white_space c = false)
  /\ (forall c, hd_error (rev s) = Some c -> is_white_space c = false).

(** * Properties *)

(** ** Strings *)

Example js_ascii : js "POST" = [80; 79; 83; 84].
Proof. reflexivity. Qed.

Example js_kana : js "語" = [35486].
Proof. reflexivity. Qed.

Example trim_hello : trim (js "  Hello  ") = js "Hello".
Proof. reflexivity. Qed.

Example string_of_429 : string_of_N 429 = js "429".
Proof. reflexivity. Qed.

Lemma trimStart_split (s : jsstring) :
  exists l, s = l ++ trimStart s /\ forallb is_white_space l = true.
Proof.
  induction s as [|c r [l [E W]]]; simpl.
  - exists []. split; reflexivity.
  - destruct (is_white_space c) eqn:Hc.
    + exists (c :: l). simpl. rewrite Hc, W. split; [f_equal; exact E | reflexivity].
    + exists []. split; reflexivity.
Qed.

Lemma trimStart_head (s : jsstring) (c : N) :
  hd_error (trimStart s) = Some c -> is_white_space c = false.
Proof.
  induction s as [|a r IH]; simpl; [discriminate|].
  destruct (is_white_space a) eqn:Ha; [exact IH|].
  simpl. intros [= <-]. exact Ha.
Qed.

Lemma forallb_rev {A} (f : A -> bool) (l : list A) :
  forallb f (rev l) = forallb f l.
Proof.
  induction l as [|a l IH]; simpl; [reflexivity|].
  rewrite forallb_app, IH. simpl. rewrite andb_true_r. apply andb_comm.
Qed.

Lemma trimEnd_split (s : jsstring) :
  exists r, s = trimEnd s ++ r /\ forallb is_white_space r = true.
Proof.
  unfold trimEnd. destruct (trimStart_split (rev s)) as [l [E W]].
  exists (rev l). split.
  - rewrite <- rev_app_distr, <- E. symmetry. apply rev_involutive.
  - rewrite forallb_rev. exact W.
Qed.

Lemma trimEnd_last (s : jsstring) (c : N) :
  hd_error (rev (trimEnd s)) = Some c -> is_white_space c = false.
Proof.
  unfold trimEnd. rewrite rev_involutive. apply trimStart_head.
Qed.

(** What [trimEnd] keeps is a prefix, so it starts as its argument does. *)
Lemma trimEnd_head (s : jsstring) (c : N) :
  hd_error (trimEnd s) = Some c -> hd_error s = Some c.
Proof.
  destruct (trimEnd_split s) as [r [E _]].
  destruct (trimEnd s) as [|a t]; simpl; [discriminate|].
  intros [= <-]. rewrite E. reflexivity.
Qed.

(** [trim s] is [s] without a run of white space at either end, and has
    white space at neither end. *)
Lemma trim_spec (s : jsstring) :
  exists l r,
    s = l ++ trim s ++ r
    /\ forallb is_white_space l = true
    /\ forallb is_white_space r = true
    /\ (forall c, hd_error (trim s) = Some c -> is_white_space c = false)
    /\ (forall c, hd_error (rev (trim s)) = Some c -> is_white_space c = false).
Proof.
  unfold trim.
  destruct (trimStart_split s) as [l [El Wl]].
  destruct (trimEnd_split (trimStart s)) as [r [Er Wr]].
  exists l, r. repeat split; auto.
  - rewrite <- Er. exact El.
  - intros c H. apply (trimStart_head s). apply trimEnd_head. exact H.
  - intros c. apply trimEnd_last.
Qed.

(** ** The monad *)

Lemma bind_ret_l {A B} (a : A) (k : A -> M B) : bind (ret a) k = k a.
Proof. unfold bind, ret. destruct (k a). reflexivity. Qed.

Lemma bind_throw {A B} (e : exn) (k : A -> M B) : bind (throw e) k = throw e.
Proof. reflexivity. Qed.

Lemma bind_inr {A B} (m : M A) (k : A -> M B) (t : list Event) (b : B) :
  bind m k = (t, inr b) ->
  exists t1 a t2, m = (t1, inr a) /\ k a = (t2, inr b) /\ t = t1 ++ t2.
Proof.
  unfold bind. destruct m as [t1 [e|a]]; [discriminate|].
  destruct (k a) as [t2 r] eqn:E. intros [= <- ->].
  exists t1, a, t2. auto.
Qed.

Lemma after_nil {A} (m : M A) : after [] m = m.
Proof. destruct m. reflexivity. Qed.

Lemma after_after {A} (t u : list Event) (m : M A) :
  after t (after u m) = after (t ++ u) m.
Proof. unfold after. simpl. rewrite app_assoc. reflexivity. Qed.

Lemma bind_after {A B} (t : list Event) (m : M A) (k : A -> M B) :
  bind (after t m) k = after t (bind m k).
Proof.
  destruct m as [u [e|a]]; unfold after, bind; simpl; [reflexivity|].
  destruct (k a). simpl. rewrite app_assoc. reflexivity.
Qed.

Lemma try_catch_after {A} (t : list Event) (m : M A) (h : exn -> M A) :
  try_catch (after t m) h = after t (try_catch m h).
Proof.
  destruct m as [u [e|a]]; unfold after, try_catch; simpl; [|reflexivity].
  destruct (h e). simpl. rewrite app_assoc. reflexivity.
Qed.

Lemma try_catch_ret {A} (a : A) (h : exn -> M A) : try_catch (ret a) h = ret a.
Proof. reflexivity. Qed.

Lemma try_catch_throw {A} (e : exn) (h : exn -> M A) :
  try_catch (throw e) h = h e.
Proof. unfold try_catch, throw. destruct (h e). reflexivity. Qed.

Lemma bind_emit {B} (ev : Event) (k : M B) :
  bind (emit ev) (fun _ => k) = after [ev] k.
Proof. unfold bind, emit, after. destruct k. reflexivity. Qed.

Lemma bind_lift_inr {A B} (a : A) (k : A -> M B) : bind (lift (inr a)) k = k a.
Proof. apply bind_ret_l. Qed.

Lemma bind_lift_inl {A B} (e : exn) (k : A -> M B) :
  bind (lift (inl e)) k = throw e.
Proof. reflexivity. Qed.

Lemma bind_assoc {A B C} (m : M A) (k : A -> M B) (h : B -> M C) :
  bind (bind m k) h = bind m (fun a => bind (k a) h).
Proof.
  destruct m as [t [e|a]]; unfold bind; [reflexivity|].
  destruct (k a) as [u [e|b]]; [reflexivity|].
  destruct (h b). rewrite app_assoc. reflexivity.
Qed.

(** ** Reads *)

Section Reads.

Variable rt : Runtime.

Lemma get_not_nullish (v : value) (k : Key) :
  nullish v = false -> get rt v k = ret (lookup v k).
Proof. destruct v as [[]|]; simpl; intros H; try discriminate; reflexivity. Qed.

Lemma get_nullish (v : value) (k : Key) :
  nullish v = true -> get rt v k = throw (TypeError (cannot_read rt v (key_text k))).
Proof. destruct v as [[]|]; simpl; intros H; try discriminate; reflexivity. Qed.

Lemma truthy_not_nullish (v : value) : truthy v = true -> nullish v = false.
Proof. destruct v as [[]|]; simpl; intros H; try discriminate; reflexivity. Qed.

Lemma get_truthy (v : value) (k : Key) :
  truthy v = true -> get rt v k = ret (lookup v k).
Proof. intros H. apply get_not_nullish, truthy_not_nullish, H. Qed.

(** A value that has a property is an object, an array or a string with
    that index: it is truthy. *)
Lemma lookup_defined (v : value) (k : Key) (x : JSON) :
  lookup v k = Some x -> truthy v = true.
Proof.
  destruct v as [[| | |s| |]|], k; simpl; try discriminate; try reflexivity.
  destruct s; [destruct i|]; simpl; try discriminate. reflexivity.
Qed.

Lemma lookup_nullish (v : value) (k : Key) :
  nullish v = true -> lookup v k = None.
Proof. destruct v as [[]|]; simpl; try discriminate; reflexivity. Qed.

Lemma get_root (d : JSON) (k : Key) :
  d <> JNull -> get rt (Some d) k = ret (lookup (Some d) k).
Proof. intros H. apply get_not_nullish. destruct d; try reflexivity. contradiction. Qed.

End Reads.

(** ** Unwrapping the upstream reply *)

Section Extract.

Variable rt : Runtime.

Lemma nested_text_unfold (d : JSON) :
  nested_text d =
  lookup (lookup (lookup (lookup (lookup (lookup (Some d) (Name p_candidates))
    (Index 0)) (Name p_content)) (Name p_parts)) (Index 0)) (Name p_text).
Proof. reflexivity. Qed.

Lemma lookup_falsy (v : value) (k : Key) :
  truthy v = false -> lookup v k = None.
Proof.
  destruct v as [[| | |s| |]|], k; simpl; try discriminate; try reflexivity.
  destruct s; [destruct i|]; simpl; try discriminate; reflexivity.
Qed.

(** One operand of the [&&] chain: a truthy base is read, a falsy one ends
    every later read in [undefined]. *)
Ltac operand v :=
  let E := fresh "E" in
  destruct (truthy v) eqn:E;
  [ rewrite ?(get_truthy rt v) by exact E; rewrite ?bind_ret_l
  | repeat (progress (rewrite ?bind_ret_l, ?E; cbv iota));
    rewrite ?(lookup_falsy v) by exact E; reflexivity ].

Lemma chat_extract_total (d : JSON) :
  d <> JNull ->
  Chat.extract rt d =
  if truthy (nested_text d) then ret (nested_text d)
  else ([ConsoleWarn (js "Unexpected Gemini response structure:") (LogValue d)],
        inr (Some (JString not_found))).
Proof.
  intros Hd. rewrite nested_text_unfold. unfold Chat.extract, and_then.
  rewrite (get_root rt d _ Hd), !bind_ret_l.
  set (v1 := lookup (Some d) (Name p_candidates)). operand v1.
  set (v2 := lookup v1 (Index 0)). operand v2.
  set (v3 := lookup v2 (Name p_content)). operand v3.
  set (v4 := lookup v3 (Name p_parts)). operand v4.
  set (v5 := lookup v4 (Index 0)). operand v5.
  set (v6 := lookup v5 (Name p_text)).
  destruct (truthy v6); reflexivity.
Qed.

End Extract.

(** ** The gates *)

Section Gates.

Variable rt : Runtime.

Lemma jsstring_eqb_refl (s : jsstring) : jsstring_eqb s s = true.
Proof. unfold jsstring_eqb. destruct (list_eq_dec N.eq_dec s s); congruence. Qed.

Lemma jsstring_eqb_neq (a b : jsstring) : a <> b -> jsstring_eqb a b = false.
Proof. unfold jsstring_eqb. destruct (list_eq_dec N.eq_dec a b); congruence. Qed.

Lemma truthy_key (k : jsstring) :
  k <> [] -> truthy (option_map JString (Some k)) = true.
Proof. destruct k; [contradiction | reflexivity]. Qed.

(** Past both gates, the handlers are their [try] block under the [catch]. *)
Lemma chat_post (k : jsstring) (r : exn + JSON) :
  k <> [] ->
  Chat.onRequest rt (mkContext (mkRequest (js "POST") r) (mkEnv (Some k))) =
  try_catch
    (Chat.try_block rt (mkContext (mkRequest (js "POST") r) (mkEnv (Some k))))
    catch_block.
Proof.
  intros Hk. unfold Chat.onRequest. cbn [request method env GEMINI_API_KEY].
  rewrite jsstring_eqb_refl, (truthy_key k Hk). reflexivity.
Qed.

Lemma single_post (k : jsstring) (r : exn + JSON) :
  k <> [] ->
  Single.onRequest rt (mkContext (mkRequest (js "POST") r) (mkEnv (Some k))) =
  try_catch
    (Single.try_block rt (mkContext (mkRequest (js "POST") r) (mkEnv (Some k))))
    catch_block.
Proof.
  intros Hk. unfold Single.onRequest. cbn [request method env GEMINI_API_KEY].
  rewrite jsstring_eqb_refl, (truthy_key k Hk). reflexivity.
Qed.

(** C7. A request whose method is not POST is answered 405 with the plain
    text [Method Not Allowed] and no JSON header by both handlers, whatever
    its body and the configuration are, and before anything is read. *)
Theorem non_post_method_not_allowed (context : Context) :
  method (request context) <> js "POST" ->
  Chat.onRequest rt context
  = ([], inr (mkResponse (BodyText (js "Method Not Allowed")) 405 []))
  /\ Single.onRequest rt context
     = ([], inr (mkResponse (BodyText (js "Method Not Allowed")) 405 [])).
Proof.
  intros H. unfold Chat.onRequest, Single.onRequest.
  rewrite (jsstring_eqb_neq _ _ H). split; reflexivity.
Qed.

(** C6. With no [GEMINI_API_KEY] configured, every POST request is answered
    500 with an [error] field by both handlers, whatever [request.json()]
    would give (a body, valid or with fields missing, or a rejection); the
    body is not read. *)
Theorem missing_key_is_500 (body_outcome : exn + JSON) :
  Chat.onRequest rt (mkContext (mkRequest (js "POST") body_outcome) (mkEnv None))
  = ([], inr (mkResponse
                (BodyJSON (JObject [(js "error",
                   JString (js "GEMINI_API_KEY is not set in Cloudflare"))]))
                500 application_json))
  /\ Single.onRequest rt (mkContext (mkRequest (js "POST") body_outcome) (mkEnv None))
     = ([], inr (mkResponse
                   (BodyJSON (JObject [(js "error",
                      JString (js "GEMINI_API_KEY is not set"))]))
                   500 application_json)).
Proof. split; reflexivity. Qed.

(** C8. With the key configured, a POST request whose body is not valid
    JSON ([request.json()] rejects with [e]) is answered 500 with [e]'s
    message as the [error] field by both handlers: the rejection reaches the
    [catch] block, and nothing is sent upstream. *)
Theorem malformed_body_is_500 (k : jsstring) (e : exn) :
  k <> [] ->
  Chat.onRequest rt (mkContext (mkRequest (js "POST") (inl e)) (mkEnv (Some k)))
  = ([ReadRequestBody; ConsoleError (js "Error in function:") (LogError e)],
     inr (mkResponse (BodyJSON (JObject [(js "error", JString (message e))]))
            500 application_json))
  /\ Single.onRequest rt (mkContext (mkRequest (js "POST") (inl e)) (mkEnv (Some k)))
     = ([ReadRequestBody; ConsoleError (js "Error in function:") (LogError e)],
        inr (mkResponse (BodyJSON (JObject [(js "error", JString (message e))]))
               500 application_json)).
Proof.
  intros Hk. rewrite (chat_post k _ Hk), (single_post k _ Hk).
  split; reflexivity.
Qed.

Lemma request_json_ok {B} (m : jsstring) (d : JSON) (k : JSON -> M B) :
  bind (request_json (mkRequest m (inr d))) k = after [ReadRequestBody] (k d).
Proof.
  unfold request_json. cbn [json].
  rewrite bind_assoc, bind_emit, bind_lift_inr. reflexivity.
Qed.

Lemma chat_rejects (k : jsstring) (d : JSON) :
  k <> [] -> d <> JNull ->
  truthy (lookup (Some d) (Name p_text))
  && truthy (lookup (Some d) (Name p_mode)) = false ->
  Chat.onRequest rt (post k d)
  = ([ReadRequestBody],
     inr (json_response (error_object (js "No text or mode provided")) 400)).
Proof.
  intros Hk Hd H. unfold post. rewrite (chat_post k _ Hk).
  unfold Chat.try_block. cbn [request env GEMINI_API_KEY].
  rewrite request_json_ok, !(get_root rt d _ Hd), !bind_ret_l.
  rewrite <- negb_andb, H. reflexivity.
Qed.

Lemma single_rejects (k : jsstring) (d : JSON) :
  k <> [] -> d <> JNull ->
  truthy (lookup (Some d) (Name p_text)) = false ->
  Single.onRequest rt (post k d)
  = ([ReadRequestBody],
     inr (json_response (error_object (js "No text provided")) 400)).
Proof.
  intros Hk Hd H. unfold post. rewrite (single_post k _ Hk).
  unfold Single.try_block. cbn [request env GEMINI_API_KEY].
  rewrite request_json_ok, !(get_root rt d _ Hd), !bind_ret_l.
  rewrite H. reflexivity.
Qed.

(** C5, as the code has it.  With the key configured, a POST request whose
    body parses to a value other than [null] and has no [text] field, or
    has the empty string there, is answered 400 with an [error] field by
    both handlers, and so is one without [mode] by the bidirectional
    handler; the body is read and nothing is sent upstream. *)
Theorem missing_field_is_400 (k : jsstring) (d : JSON) :
  k <> [] -> d <> JNull ->
  (lookup (Some d) (Name p_text) = None
   \/ lookup (Some d) (Name p_text) = Some (JString []) ->
   Chat.onRequest rt (post k d)
   = ([ReadRequestBody],
      inr (mkResponse
             (BodyJSON (JObject [(js "error", JString (js "No text or mode provided"))]))
             400 application_json))
   /\ Single.onRequest rt (post k d)
      = ([ReadRequestBody],
         inr (mkResponse
                (BodyJSON (JObject [(js "error", JString (js "No text provided"))]))
                400 application_json)))
  /\ (lookup (Some d) (Name p_mode) = None ->
      Chat.onRequest rt (post k d)
      = ([ReadRequestBody],
         inr (mkResponse
                (BodyJSON (JObject [(js "error", JString (js "No text or mode provided"))]))
                400 application_json))).
Proof.
  intros Hk Hd. split.
  - intros H.
    assert (F : truthy (lookup (Some d) (Name p_text)) = false)
      by (destruct H as [-> | ->]; reflexivity).
    split.
    + apply (chat_rejects k d Hk Hd). rewrite F. reflexivity.
    + apply (single_rejects k d Hk Hd F).
  - intros H. apply (chat_rejects k d Hk Hd). rewrite H. apply andb_false_r.
Qed.

End Gates.

(** ** The upstream call and its reply *)

Section Upstream.

Variable rt : Runtime.

Lemma lookup_root_not_null (d : JSON) (k : Key) (x : JSON) :
  lookup (Some d) k = Some x -> d <> JNull.
Proof. intros H ->. discriminate. Qed.

Lemma await_fetch_bind {B} (url : jsstring) (init : FetchInit)
    (k : UpstreamResponse -> M B) :
  bind (await_fetch rt url init) k
  = after [FetchCall url init] (bind (lift (fetch rt url init)) k).
Proof. unfold await_fetch. rewrite bind_assoc, bind_emit. reflexivity. Qed.

Lemma response_json_ok {B} (up : UpstreamResponse) (d : JSON) (k : JSON -> M B) :
  up_json up = inr d ->
  bind (response_json up) k = after [ReadUpstreamBody] (k d).
Proof.
  intros H. unfold response_json.
  rewrite bind_assoc, bind_emit, H, bind_lift_inr. reflexivity.
Qed.

(** The prompt the bidirectional handler builds from a string. *)
Lemma chat_build_prompt (mode : value) (s : jsstring) :
  Chat.build_prompt rt mode (Some (JString s))
  = ret (if strict_eq_string mode (js "toLeet")
         then Chat.toLeet_prompt s else Chat.fromLeet_prompt s).
Proof. unfold Chat.build_prompt. destruct (strict_eq_string _ _); reflexivity. Qed.

(** A request with a non-empty string as [text] and a truthy [mode] passes
    validation in the bidirectional handler: one call goes upstream. *)
Lemma chat_accepts (k : jsstring) (d : JSON) (s : jsstring) :
  k <> [] ->
  lookup (Some d) (Name p_text) = Some (JString s) -> s <> [] ->
  truthy (lookup (Some d) (Name p_mode)) = true ->
  let prompt :=
    if strict_eq_string (lookup (Some d) (Name p_mode)) (js "toLeet")
    then Chat.toLeet_prompt s else Chat.fromLeet_prompt s in
  Chat.onRequest rt (post k d)
  = after [ReadRequestBody; FetchCall (geminiApiUrl (Some k)) (fetch_init prompt)]
      (try_catch
         (bind (lift (fetch rt (geminiApiUrl (Some k)) (fetch_init prompt)))
            (Chat.relay rt))
         catch_block).
Proof.
  intros Hk Ht Hs Hm prompt. unfold post. rewrite (chat_post rt k _ Hk).
  pose proof (lookup_root_not_null d _ _ Ht) as Hd.
  unfold Chat.try_block. cbn [request env GEMINI_API_KEY].
  rewrite request_json_ok, !(get_root rt d _ Hd), !bind_ret_l.
  rewrite Ht, Hm. destruct s as [|c s]; [contradiction|].
  cbn [truthy negb orb]. rewrite chat_build_prompt, bind_ret_l.
  rewrite await_fetch_bind, !try_catch_after, after_after. reflexivity.
Qed.

(** The same for the single-direction handler, which has no [mode]. *)
Lemma single_accepts (k : jsstring) (d : JSON) (s : jsstring) :
  k <> [] ->
  lookup (Some d) (Name p_text) = Some (JString s) -> s <> [] ->
  let prompt := Single.prompt_of s in
  Single.onRequest rt (post k d)
  = after [ReadRequestBody; FetchCall (geminiApiUrl (Some k)) (fetch_init prompt)]
      (try_catch
         (bind (lift (fetch rt (geminiApiUrl (Some k)) (fetch_init prompt)))
            (Single.relay rt))
         catch_block).
Proof.
  intros Hk Ht Hs prompt. unfold post. rewrite (single_post rt k _ Hk).
  pose proof (lookup_root_not_null d _ _ Ht) as Hd.
  unfold Single.try_block. cbn [request env GEMINI_API_KEY].
  rewrite request_json_ok, !(get_root rt d _ Hd), !bind_ret_l.
  rewrite Ht. destruct s as [|c s]; [contradiction|].
  cbn [truthy negb to_string_value to_string]. rewrite bind_lift_inr.
  rewrite await_fetch_bind, !try_catch_after, after_after. reflexivity.
Qed.

(** The single-direction read of the nested path, level by level. *)
Lemma single_extract_total (d : JSON) :
  d <> JNull ->
  let candidates := lookup (Some d) (Name p_candidates) in
  let content := lookup (lookup candidates (Index 0)) (Name p_content) in
  let parts := lookup content (Name p_parts) in
  Single.extract rt d =
  if nullish candidates then
    throw (TypeError (cannot_read rt candidates (js "0")))
  else if nullish (lookup candidates (Index 0)) then ret (Some (JString not_found))
  else if nullish content then ret (Some (JString not_found))
  else if nullish parts then throw (TypeError (cannot_read rt parts (js "0")))
  else if truthy (nested_text d) then ret (nested_text d)
  else ret (Some (JString not_found)).
Proof.
  intros Hd candidates content parts. rewrite nested_text_unfold.
  fold candidates. fold content. fold parts.
  unfold Single.extract, or_else.
  rewrite (get_root rt d _ Hd), !bind_ret_l. fold candidates.
  destruct (nullish candidates) eqn:E1;
    [rewrite (get_nullish rt _ _ E1); reflexivity|].
  rewrite (get_not_nullish rt _ _ E1), !bind_ret_l.
  destruct (nullish (lookup candidates (Index 0))) eqn:E2;
    [rewrite !bind_ret_l; reflexivity|].
  rewrite (get_not_nullish rt _ _ E2), !bind_ret_l. fold content.
  destruct (nullish content) eqn:E3; [rewrite !bind_ret_l; reflexivity|].
  rewrite (get_not_nullish rt _ _ E3), !bind_ret_l. fold parts.
  destruct (nullish parts) eqn:E4;
    [rewrite (get_nullish rt _ _ E4); reflexivity|].
  rewrite (get_not_nullish rt _ _ E4), !bind_ret_l.
  destruct (nullish (lookup parts (Index 0))) eqn:E5.
  - rewrite !bind_ret_l, (lookup_nullish _ _ E5). reflexivity.
  - rewrite (get_not_nullish rt _ _ E5), !bind_ret_l. reflexivity.
Qed.

Lemma lookup_truthy_base (v : value) (k : Key) :
  truthy (lookup v k) = true -> truthy v = true.
Proof.
  destruct (lookup v k) as [x|] eqn:E; [|discriminate].
  intros _. exact (lookup_defined v k x E).
Qed.

Lemma nested_text_not_null (rd : JSON) (x : JSON) :
  nested_text rd = Some x -> rd <> JNull.
Proof. intros H ->. discriminate. Qed.

(** Where the nested text is defined, every link before it is there. *)
Lemma nested_text_links (rd : JSON) (x : JSON) :
  nested_text rd = Some x ->
  let candidates := lookup (Some rd) (Name p_candidates) in
  let content := lookup (lookup candidates (Index 0)) (Name p_content) in
  let parts := lookup content (Name p_parts) in
  nullish candidates = false
  /\ nullish (lookup candidates (Index 0)) = false
  /\ nullish content = false
  /\ nullish parts = false.
Proof.
  rewrite nested_text_unfold. intros H candidates content parts.
  fold candidates in H. fold content in H. fold parts in H.
  pose proof (lookup_defined _ _ _ H) as T5.
  pose proof (lookup_truthy_base _ _ T5) as T4.
  pose proof (lookup_truthy_base _ _ T4) as T3. fold content in T3.
  pose proof (lookup_truthy_base _ _ T3) as T2.
  pose proof (lookup_truthy_base _ _ T2) as T1.
  auto using truthy_not_nullish.
Qed.

(** After a success reply whose body parses, the answer of either handler
    is what the unwrapping of that body gives. *)
Lemma chat_reply (k : jsstring) (d : JSON) (s : jsstring)
    (up : UpstreamResponse) (rd : JSON) :
  k <> [] ->
  lookup (Some d) (Name p_text) = Some (JString s) -> s <> [] ->
  truthy (lookup (Some d) (Name p_mode)) = true ->
  (forall url init, fetch rt url init = inr up) ->
  ok up = true -> up_json up = inr rd ->
  snd (Chat.onRequest rt (post k d))
  = snd (try_catch
           (translation <- Chat.extract rt rd ;;
            t <- call_trim rt translation ;;
            ret (json_response (translation_object t) 200))
           catch_block).
Proof.
  intros Hk Ht Hs Hm Hup Hok Hj.
  rewrite (chat_accepts k d s Hk Ht Hs Hm), Hup, bind_lift_inr.
  unfold Chat.relay. rewrite Hok. cbn [negb].
  rewrite (response_json_ok up rd _ Hj), try_catch_after. reflexivity.
Qed.

Lemma single_reply (k : jsstring) (d : JSON) (s : jsstring)
    (up : UpstreamResponse) (rd : JSON) :
  k <> [] ->
  lookup (Some d) (Name p_text) = Some (JString s) -> s <> [] ->
  (forall url init, fetch rt url init = inr up) ->
  ok up = true -> up_json up = inr rd ->
  snd (Single.onRequest rt (post k d))
  = snd (try_catch
           (translation <- Single.extract rt rd ;;
            t <- call_trim rt translation ;;
            ret (json_response (translation_object t) 200))
           catch_block).
Proof.
  intros Hk Ht Hs Hup Hok Hj.
  rewrite (single_accepts k d s Hk Ht Hs), Hup, bind_lift_inr.
  unfold Single.relay. rewrite Hok. cbn [negb].
  rewrite (response_json_ok up rd _ Hj), try_catch_after. reflexivity.
Qed.

Lemma single_extract_defined (rd : JSON) (x : JSON) :
  nested_text rd = Some x ->
  Single.extract rt rd
  = ret (if truthy (Some x) then Some x else Some (JString not_found)).
Proof.
  intros H. pose proof (nested_text_links rd x H) as [L1 [L2 [L3 L4]]].
  rewrite (single_extract_total rd (nested_text_not_null rd x H)).
  cbv zeta. rewrite L1, L2, L3, L4, H. destruct (truthy (Some x)); reflexivity.
Qed.

(** C3. Where the nested text of a success reply is a non-empty string [t],
    both handlers answer 200 with [{ translation: trim t }], and [trim t] is
    [t] without the white space at its two ends. *)
Theorem translation_is_trimmed_text (k : jsstring) (d : JSON) (s : jsstring)
    (up : UpstreamResponse) (rd : JSON) (t : jsstring) :
  k <> [] ->
  lookup (Some d) (Name p_text) = Some (JString s) -> s <> [] ->
  truthy (lookup (Some d) (Name p_mode)) = true ->
  (forall url init, fetch rt url init = inr up) ->
  ok up = true -> up_json up = inr rd ->
  nested_text rd = Some (JString t) -> t <> [] ->
  snd (Chat.onRequest rt (post k d))
  = inr (mkResponse (BodyJSON (JObject [(js "translation", JString (trim t))]))
           200 application_json)
  /\ snd (Single.onRequest rt (post k d))
     = inr (mkResponse (BodyJSON (JObject [(js "translation", JString (trim t))]))
              200 application_json)
  /\ exists l r,
       t = l ++ trim t ++ r
       /\ forallb is_white_space l = true
       /\ forallb is_white_space r = true
       /\ (forall c, hd_error (trim t) = Some c -> is_white_space c = false)
       /\ (forall c, hd_error (rev (trim t)) = Some c -> is_white_space c = false).
Proof.
  intros Hk Ht Hs Hm Hup Hok Hj Hn Hne.
  assert (T : truthy (Some (JString t)) = true)
    by (destruct t; [contradiction | reflexivity]).
  split; [|split; [|apply trim_spec]].
  - rewrite (chat_reply k d s up rd Hk Ht Hs Hm Hup Hok Hj).
    rewrite (chat_extract_total rt rd (nested_text_not_null rd _ Hn)), Hn, T.
    reflexivity.
  - rewrite (single_reply k d s up rd Hk Ht Hs Hup Hok Hj).
    rewrite (single_extract_defined rd _ Hn), T. reflexivity.
Qed.

(** C10. Where the nested path of a success reply is all there and its
    text is the empty string, both handlers answer 200 with
    [{ translation: "Translation not found." }]. *)
Theorem empty_text_is_not_found (k : jsstring) (d : JSON) (s : jsstring)
    (up : UpstreamResponse) (rd : JSON) :
  k <> [] ->
  lookup (Some d) (Name p_text) = Some (JString s) -> s <> [] ->
  truthy (lookup (Some d) (Name p_mode)) = true ->
  (forall url init, fetch rt url init = inr up) ->
  ok up = true -> up_json up = inr rd ->
  nested_text rd = Some (JString []) ->
  snd (Chat.onRequest rt (post k d))
  = inr (mkResponse
           (BodyJSON (JObject [(js "translation", JString (js "Translation not found."))]))
           200 application_json)
  /\ snd (Single.onRequest rt (post k d))
     = inr (mkResponse
              (BodyJSON (JObject [(js "translation", JString (js "Translation not found."))]))
              200 application_json).
Proof.
  intros Hk Ht Hs Hm Hup Hok Hj Hn. split.
  - rewrite (chat_reply k d s up rd Hk Ht Hs Hm Hup Hok Hj).
    rewrite (chat_extract_total rt rd (nested_text_not_null rd _ Hn)), Hn.
    reflexivity.
  - rewrite (single_reply k d s up rd Hk Ht Hs Hup Hok Hj).
    rewrite (single_extract_defined rd _ Hn). reflexivity.
Qed.

(** A success reply with no usable nested text, read by the bidirectional
    handler: the fallback, not an error. *)
Lemma chat_broken_path_not_found (k : jsstring) (d : JSON) (s : jsstring)
    (up : UpstreamResponse) (rd : JSON) :
  k <> [] ->
  lookup (Some d) (Name p_text) = Some (JString s) -> s <> [] ->
  truthy (lookup (Some d) (Name p_mode)) = true ->
  (forall url init, fetch rt url init = inr up) ->
  ok up = true -> up_json up = inr rd ->
  rd <> JNull -> truthy (nested_text rd) = false ->
  snd (Chat.onRequest rt (post k d))
  = inr (mkResponse
           (BodyJSON (JObject [(js "translation", JString (js "Translation not found."))]))
           200 application_json).
Proof.
  intros Hk Ht Hs Hm Hup Hok Hj Hrd Hn.
  rewrite (chat_reply k d s up rd Hk Ht Hs Hm Hup Hok Hj).
  rewrite (chat_extract_total rt rd Hrd), Hn. reflexivity.
Qed.

(** The same reply with its [parts] list absent, read by the
    single-direction handler: [parts[0]] throws. *)
Lemma single_missing_parts_is_500 (k : jsstring) (d : JSON) (s : jsstring)
    (up : UpstreamResponse) (rd : JSON) :
  k <> [] ->
  lookup (Some d) (Name p_text) = Some (JString s) -> s <> [] ->
  (forall url init, fetch rt url init = inr up) ->
  ok up = true -> up_json up = inr rd ->
  nullish (lookup (lookup (lookup (Some rd) (Name p_candidates)) (Index 0))
             (Name p_content)) = false ->
  lookup (lookup (lookup (lookup (Some rd) (Name p_candidates)) (Index 0))
            (Name p_content)) (Name p_parts) = None ->
  snd (Single.onRequest rt (post k d))
  = inr (json_response (error_object (cannot_read rt None (js "0"))) 500).
Proof.
  intros Hk Ht Hs Hup Hok Hj Hc Hp.
  rewrite (single_reply k d s up rd Hk Ht Hs Hup Hok Hj).
  assert (Hrd : rd <> JNull) by (intros ->; discriminate).
  rewrite (single_extract_total rd Hrd). cbv zeta. rewrite Hc, Hp.
  destruct (nullish (lookup (Some rd) (Name p_candidates))) eqn:E1.
  { rewrite !(lookup_nullish _ _ E1) in Hc. discriminate. }
  destruct (nullish (lookup (lookup (Some rd) (Name p_candidates)) (Index 0))) eqn:E2.
  { rewrite !(lookup_nullish _ _ E2) in Hc. discriminate. }
  reflexivity.
Qed.

(** C1, on the code.  A success reply whose body has no [candidates] field
    has its nested path broken; the bidirectional handler answers 200 with
    the fallback, but the single-direction handler reads [candidates[0]]
    unguarded, throws, and answers 500 with the engine's message. *)
Theorem single_missing_candidates_is_500 (k : jsstring) (d : JSON) (s : jsstring)
    (up : UpstreamResponse) (rd : JSON) :
  k <> [] ->
  lookup (Some d) (Name p_text) = Some (JString s) -> s <> [] ->
  truthy (lookup (Some d) (Name p_mode)) = true ->
  (forall url init, fetch rt url init = inr up) ->
  ok up = true -> up_json up = inr rd ->
  rd <> JNull -> lookup (Some rd) (Name p_candidates) = None ->
  nested_text rd = None
  /\ snd (Chat.onRequest rt (post k d))
     = inr (mkResponse
              (BodyJSON (JObject [(js "translation", JString (js "Translation not found."))]))
              200 application_json)
  /\ snd (Single.onRequest rt (post k d))
     = inr (mkResponse
              (BodyJSON (JObject [(js "error", JString (cannot_read rt None (js "0")))]))
              500 application_json).
Proof.
  intros Hk Ht Hs Hm Hup Hok Hj Hrd Hc.
  assert (Hn : nested_text rd = None) by (rewrite nested_text_unfold, Hc; reflexivity).
  split; [exact Hn|split].
  - assert (F : truthy (nested_text rd) = false) by (rewrite Hn; reflexivity).
    exact (chat_broken_path_not_found k d s up rd Hk Ht Hs Hm Hup Hok Hj Hrd F).
  - rewrite (single_reply k d s up rd Hk Ht Hs Hup Hok Hj).
    rewrite (single_extract_total rd Hrd). cbv zeta. rewrite Hc. reflexivity.
Qed.

(** The failure branch of the bidirectional handler always throws. *)
Lemma chat_upstream_failure_throws (up : UpstreamResponse) (t : list Event)
    (r : Response) :
  Chat.upstream_failure rt up <> (t, inr r).
Proof.
  unfold Chat.upstream_failure. intros H.
  apply bind_inr in H as (? & ? & ? & _ & H & _).
  apply bind_inr in H as (? & ? & ? & _ & H & _).
  apply bind_inr in H as (? & ? & ? & _ & H & _).
  apply bind_inr in H as (? & ? & ? & _ & H & _).
  discriminate H.
Qed.

(** A success reply whose body is [null]: the first read throws in both
    handlers. *)
Lemma null_reply_is_500 (k : jsstring) (d : JSON) (s : jsstring)
    (up : UpstreamResponse) :
  k <> [] ->
  lookup (Some d) (Name p_text) = Some (JString s) -> s <> [] ->
  truthy (lookup (Some d) (Name p_mode)) = true ->
  (forall url init, fetch rt url init = inr up) ->
  ok up = true -> up_json up = inr JNull ->
  snd (Chat.onRequest rt (post k d))
  = inr (json_response
           (error_object (cannot_read rt (Some JNull) (js "candidates"))) 500)
  /\ snd (Single.onRequest rt (post k d))
     = inr (json_response
              (error_object (cannot_read rt (Some JNull) (js "candidates"))) 500).
Proof.
  intros Hk Ht Hs Hm Hup Hok Hj. split.
  - rewrite (chat_reply k d s up JNull Hk Ht Hs Hm Hup Hok Hj). reflexivity.
  - rewrite (single_reply k d s up JNull Hk Ht Hs Hup Hok Hj). reflexivity.
Qed.

(** What the bidirectional handler does with a failure reply whose body
    parses: the message is [errorBody.error?.message] when truthy, the
    status-code text otherwise. *)
Lemma chat_relay_failure (up : UpstreamResponse) (eb : JSON) :
  ok up = false -> up_json up = inr eb -> eb <> JNull ->
  Chat.relay rt up
  = after [ReadUpstreamBody; ConsoleError (js "Gemini API error:") (LogValue eb)]
      (e <- new_Error rt
              (if truthy (error_message eb) then error_message eb
               else Some (JString (js "Gemini API error: "
                                   ++ string_of_N (up_status up)))) ;;
       throw e).
Proof.
  intros Hok Hj Hn. unfold Chat.relay, Chat.upstream_failure. rewrite Hok.
  cbn [negb]. rewrite (response_json_ok up eb _ Hj), bind_emit, after_after.
  cbn [app]. f_equal. unfold or_else, error_message.
  rewrite (get_root rt eb _ Hn), bind_ret_l.
  destruct (nullish (lookup (Some eb) (Name p_error))) eqn:E.
  - rewrite !bind_ret_l, (lookup_nullish _ _ E). reflexivity.
  - rewrite (get_not_nullish rt _ _ E), !bind_ret_l.
    destruct (truthy _); rewrite bind_ret_l; reflexivity.
Qed.

(** C2, as the code has it.  After a failure reply both handlers answer
    500 with an [error] field.  The bidirectional one gives the upstream's [error.message] where
    the error body parses and holds a non-empty string there, and
    [Gemini API error: <status>] where the body parses to a value other than
    [null] whose [error?.message] is absent or falsy.  The single-direction
    one never reads the body: its [error] field is always
    [Gemini API error: <status> <statusText>]. *)
Theorem upstream_failure_is_500 (k : jsstring) (d : JSON) (s : jsstring)
    (up : UpstreamResponse) :
  k <> [] ->
  lookup (Some d) (Name p_text) = Some (JString s) -> s <> [] ->
  truthy (lookup (Some d) (Name p_mode)) = true ->
  (forall url init, fetch rt url init = inr up) ->
  ok up = false ->
  (exists msg,
      snd (Chat.onRequest rt (post k d))
      = inr (mkResponse (BodyJSON (JObject [(js "error", JString msg)]))
               500 application_json))
  /\ (forall eb m,
      up_json up = inr eb -> error_message eb = Some (JString m) -> m <> [] ->
      snd (Chat.onRequest rt (post k d))
      = inr (mkResponse (BodyJSON (JObject [(js "error", JString m)]))
               500 application_json))
  /\ (forall eb,
        up_json up = inr eb -> eb <> JNull -> truthy (error_message eb) = false ->
        snd (Chat.onRequest rt (post k d))
        = inr (mkResponse
                 (BodyJSON (JObject [(js "error",
                    JString (js "Gemini API error: " ++ string_of_N (up_status up)))]))
                 500 application_json))
  /\ snd (Single.onRequest rt (post k d))
     = inr (mkResponse
              (BodyJSON (JObject [(js "error",
                 JString (js "Gemini API error: " ++ string_of_N (up_status up)
                          ++ js " " ++ up_statusText up))]))
              500 application_json).
Proof.
  intros Hk Ht Hs Hm Hup Hok. split; [|split; [|split]].
  - rewrite (chat_accepts k d s Hk Ht Hs Hm), Hup, bind_lift_inr.
    unfold Chat.relay. rewrite Hok. cbn [negb].
    destruct (Chat.upstream_failure rt up) as [t [e|r]] eqn:E.
    + exists (message e). reflexivity.
    + destruct (chat_upstream_failure_throws up t r E).
  - intros eb m Hj He Hne.
    assert (Hn : eb <> JNull) by (intros ->; discriminate).
    rewrite (chat_accepts k d s Hk Ht Hs Hm), Hup, bind_lift_inr.
    rewrite (chat_relay_failure up eb Hok Hj Hn), He.
    destruct m as [|c m]; [contradiction|]. reflexivity.
  - intros eb Hj Hn He.
    rewrite (chat_accepts k d s Hk Ht Hs Hm), Hup, bind_lift_inr.
    rewrite (chat_relay_failure up eb Hok Hj Hn), He. reflexivity.
  - rewrite (single_accepts k d s Hk Ht Hs), Hup, bind_lift_inr.
    unfold Single.relay. rewrite Hok. reflexivity.
Qed.

End Upstream.

(** ** The prompt *)

Section Prompt.

Variable rt : Runtime.

(** The two templates part at their 27th code unit, before the text. *)
Lemma templates_differ (s1 s2 : jsstring) :
  Chat.toLeet_head ++ [QUOTE] ++ s1 ++ [QUOTE] ++ Chat.toLeet_tail
  <> Chat.fromLeet_head ++ [QUOTE] ++ s2 ++ [QUOTE] ++ Chat.fromLeet_tail.
Proof.
  intros H. apply (f_equal (fun l => nth_error l 26)) in H.
  vm_compute in H. discriminate H.
Qed.

(** Whatever the upstream does, the [catch] block makes a response of the
    outcome of the [try] block. *)
Lemma try_catch_responds (m : M Response) :
  exists t r,
    try_catch m catch_block = (t, inr r)
    /\ (status r = 500 \/ exists u, m = (u, inr r)).
Proof.
  destruct m as [u [e|r]].
  - eexists _, _. split; [reflexivity|]. left. reflexivity.
  - exists u, r. split; [reflexivity|]. right. exists u. reflexivity.
Qed.

(** Once the call is made, the bidirectional handler only returns 200 from
    its [try] block. *)
Lemma chat_relay_status (up : UpstreamResponse) (t : list Event) (r : Response) :
  Chat.relay rt up = (t, inr r) -> status r = 200.
Proof.
  unfold Chat.relay. destruct (negb (ok up)).
  - intros H. destruct (chat_upstream_failure_throws rt up t r H).
  - intros H.
    apply bind_inr in H as (? & ? & ? & _ & H & _).
    apply bind_inr in H as (? & ? & ? & _ & H & _).
    apply bind_inr in H as (? & ? & ? & _ & H & _).
    injection H as _ <-. reflexivity.
Qed.

Lemma chat_after_fetch (outcome : exn + UpstreamResponse) :
  exists t r,
    try_catch (bind (lift outcome) (Chat.relay rt)) catch_block = (t, inr r)
    /\ status r <> 400.
Proof.
  destruct (try_catch_responds (bind (lift outcome) (Chat.relay rt)))
    as (t & r & E & S).
  exists t, r. split; [exact E|].
  destruct S as [S | [u S]]; [rewrite S; discriminate|].
  destruct outcome as [e|up]; [discriminate S|].
  rewrite bind_lift_inr in S. rewrite (chat_relay_status up u r S). discriminate.
Qed.

(** C4. In the bidirectional handler, for a request with a non-empty string
    [s] as [text], mode [toLeet] sends upstream the English-to-Leet
    instruction and mode [fromLeet] the Leet-to-English one, each with [s]
    put as it is between two quote characters; the two prompts differ
    whatever their texts are. *)
Theorem mode_selects_template (k : jsstring) (d : JSON) (s : jsstring) :
  k <> [] ->
  lookup (Some d) (Name p_text) = Some (JString s) -> s <> [] ->
  (lookup (Some d) (Name p_mode) = Some (JString (js "toLeet")) ->
   exists rest r,
     Chat.onRequest rt (post k d)
     = (ReadRequestBody
        :: FetchCall (geminiApiUrl (Some k))
             (fetch_init (Chat.toLeet_head ++ [QUOTE] ++ s ++ [QUOTE]
                          ++ Chat.toLeet_tail))
        :: rest, r))
  /\ (lookup (Some d) (Name p_mode) = Some (JString (js "fromLeet")) ->
      exists rest r,
        Chat.onRequest rt (post k d)
        = (ReadRequestBody
           :: FetchCall (geminiApiUrl (Some k))
                (fetch_init (Chat.fromLeet_head ++ [QUOTE] ++ s ++ [QUOTE]
                             ++ Chat.fromLeet_tail))
           :: rest, r))
  /\ (forall s1 s2,
        Chat.toLeet_head ++ [QUOTE] ++ s1 ++ [QUOTE] ++ Chat.toLeet_tail
        <> Chat.fromLeet_head ++ [QUOTE] ++ s2 ++ [QUOTE] ++ Chat.fromLeet_tail).
Proof.
  intros Hk Ht Hs. split; [|split; [|exact templates_differ]].
  - intros Hm.
    assert (T : truthy (lookup (Some d) (Name p_mode)) = true)
      by (rewrite Hm; reflexivity).
    rewrite (chat_accepts rt k d s Hk Ht Hs T), Hm.
    change (strict_eq_string (Some (JString (js "toLeet"))) (js "toLeet")) with true.
    cbv iota. eexists _, _. reflexivity.
  - intros Hm.
    assert (T : truthy (lookup (Some d) (Name p_mode)) = true)
      by (rewrite Hm; reflexivity).
    rewrite (chat_accepts rt k d s Hk Ht Hs T), Hm.
    change (strict_eq_string (Some (JString (js "fromLeet"))) (js "toLeet")) with false.
    cbv iota. eexists _, _. reflexivity.
Qed.

Lemma strict_eq_string_false (v : value) (lit : jsstring) :
  v <> Some (JString lit) -> strict_eq_string v lit = false.
Proof.
  destruct v as [[| | |m| |]|]; simpl; try reflexivity.
  intros H. apply jsstring_eqb_neq. congruence.
Qed.

(** C9. In the bidirectional handler a truthy [mode] other than the string
    [toLeet] is not refused: the request goes upstream with the
    Leet-to-English prompt, and the answer is not a 400. *)
Theorem other_mode_is_fromLeet (k : jsstring) (d : JSON) (s : jsstring) :
  k <> [] ->
  lookup (Some d) (Name p_text) = Some (JString s) -> s <> [] ->
  truthy (lookup (Some d) (Name p_mode)) = true ->
  lookup (Some d) (Name p_mode) <> Some (JString (js "toLeet")) ->
  exists rest response,
    Chat.onRequest rt (post k d)
    = (ReadRequestBody
       :: FetchCall (geminiApiUrl (Some k))
            (fetch_init (Chat.fromLeet_head ++ [QUOTE] ++ s ++ [QUOTE]
                         ++ Chat.fromLeet_tail))
       :: rest, inr response)
    /\ status response <> 400.
Proof.
  intros Hk Ht Hs Hm Hne.
  rewrite (chat_accepts rt k d s Hk Ht Hs Hm).
  rewrite (strict_eq_string_false _ _ Hne). cbv iota.
  destruct (chat_after_fetch
              (fetch rt (geminiApiUrl (Some k))
                 (fetch_init (Chat.fromLeet_prompt s)))) as (t & r & E & S).
  rewrite E. exists t, r. split; [reflexivity | exact S].
Qed.

End Prompt.

(** ** The handlers always answer *)

(** Neither handler lets a thrown value escape: every call ends in a
    response. *)
Theorem onRequest_responds (rt : Runtime) (context : Context) :
  (exists t r, Chat.onRequest rt context = (t, inr r))
  /\ (exists t r, Single.onRequest rt context = (t, inr r)).
Proof.
  unfold Chat.onRequest, Single.onRequest.
  destruct (negb (jsstring_eqb _ _)); [split; eexists _, _; reflexivity|].
  destruct (negb (truthy _)); [split; eexists _, _; reflexivity|].
  split.
  - destruct (try_catch_responds (Chat.try_block rt context)) as (t & r & E & _).
    exists t, r. exact E.
  - destruct (try_catch_responds (Single.try_block rt context)) as (t & r & E & _).
    exists t, r. exact E.
Qed.

(** ** The properties at sample exchanges *)

Lemma sample_key_not_empty : sample_key <> [].
Proof. discriminate. Defined.

Lemma non_post_method_not_allowed_witness :
  let context :=
    mkContext (mkRequest (js "GET") (inr (request_of "H3110" "fromLeet")))
      (mkEnv None) in
  method (request context) <> js "POST"
  /\ Chat.onRequest (v8 (inr (success JNull))) context
     = ([], inr (mkResponse (BodyText (js "Method Not Allowed")) 405 [])).
Proof.
  intros context.
  assert (H : method (request context) <> js "POST")
    by (intros E; vm_compute in E; discriminate E).
  split; [exact H|].
  exact (proj1 (non_post_method_not_allowed (v8 (inr (success JNull))) context H)).
Defined.

Lemma malformed_body_is_500_witness :
  let e := SyntaxError (js "Unexpected end of JSON input") in
  sample_key <> []
  /\ Single.onRequest (v8 (inr (success JNull)))
       (mkContext (mkRequest (js "POST") (inl e)) (mkEnv (Some sample_key)))
     = ([ReadRequestBody; ConsoleError (js "Error in function:") (LogError e)],
        inr (json_response (error_object (js "Unexpected end of JSON input")) 500)).
Proof.
  intros e. split; [exact sample_key_not_empty|].
  rewrite (proj2 (malformed_body_is_500 (v8 (inr (success JNull))) sample_key e
                    sample_key_not_empty)).
  vm_compute. reflexivity.
Defined.

Lemma missing_field_is_400_witness :
  let d := JObject [(js "mode", JString (js "toLeet"))] in
  sample_key <> [] /\ d <> JNull /\ lookup (Some d) (Name p_text) = None
  /\ Chat.onRequest (v8 (inr (success JNull))) (post sample_key d)
     = ([ReadRequestBody],
        inr (json_response (error_object (js "No text or mode provided")) 400)).
Proof.
  intros d.
  assert (Hd : d <> JNull) by discriminate.
  assert (Ht : lookup (Some d) (Name p_text) = None) by (vm_compute; reflexivity).
  split; [exact sample_key_not_empty|split; [exact Hd|split; [exact Ht|]]].
  rewrite (proj1 (proj1 (missing_field_is_400 (v8 (inr (success JNull))) sample_key d
                           sample_key_not_empty Hd) (or_introl Ht))).
  vm_compute. reflexivity.
Defined.

(** C5, as the claim has it, fails at two requests whose body has no
    [text]: a body that parses to [null], where reading [text] throws and
    the [catch] block answers 500; and any such body while no key is
    configured, where the key gate answers 500 first. *)
Lemma body_without_text_is_not_always_400 :
  lookup (Some JNull) (Name p_text) = None
  /\ Chat.onRequest (v8 (inr (success JNull))) (post sample_key JNull)
     = ([ReadRequestBody;
         ConsoleError (js "Error in function:")
           (LogError (TypeError (js "Cannot read properties of null (reading 'text')")))],
        inr (json_response
               (error_object (js "Cannot read properties of null (reading 'text')"))
               500))
  /\ Single.onRequest (v8 (inr (success JNull))) (post sample_key JNull)
     = ([ReadRequestBody;
         ConsoleError (js "Error in function:")
           (LogError (TypeError (js "Cannot read properties of null (reading 'text')")))],
        inr (json_response
               (error_object (js "Cannot read properties of null (reading 'text')"))
               500))
  /\ lookup (Some (JObject [])) (Name p_text) = None
  /\ snd (Chat.onRequest (v8 (inr (success JNull)))
            (mkContext (mkRequest (js "POST") (inr (JObject []))) (mkEnv None)))
     = inr (json_response
              (error_object (js "GEMINI_API_KEY is not set in Cloudflare")) 500)
  /\ snd (Single.onRequest (v8 (inr (success JNull)))
            (mkContext (mkRequest (js "POST") (inr (JObject []))) (mkEnv None)))
     = inr (json_response (error_object (js "GEMINI_API_KEY is not set")) 500).
Proof. repeat split; vm_compute; reflexivity. Qed.

(** A valid request and a platform that answers it with [up]. *)
Ltac sample_exchange :=
  repeat match goal with
    | |- _ <> _ => discriminate
    | |- forall _, _ => intro
    | |- _ = _ => vm_compute; reflexivity
    end.

Lemma translation_is_trimmed_text_witness :
  let up := success (reply_of (js "  Hello  ")) in
  let d := request_of "H3110" "fromLeet" in
  ok up = true
  /\ nested_text (reply_of (js "  Hello  ")) = Some (JString (js "  Hello  "))
  /\ snd (Chat.onRequest (v8 (inr up)) (post sample_key d))
     = inr (json_response (translation_object (js "Hello")) 200)
  /\ snd (Single.onRequest (v8 (inr up)) (post sample_key d))
     = inr (json_response (translation_object (js "Hello")) 200).
Proof.
  intros up d.
  split; [vm_compute; reflexivity|split; [vm_compute; reflexivity|]].
  destruct (translation_is_trimmed_text (v8 (inr up)) sample_key d (js "H3110") up
              (reply_of (js "  Hello  ")) (js "  Hello  ")) as (C & S & _);
    [sample_exchange ..|].
  rewrite C, S. split; vm_compute; reflexivity.
Defined.

Lemma empty_text_is_not_found_witness :
  let up := success (reply_of []) in
  let d := request_of "H3110" "fromLeet" in
  nested_text (reply_of []) = Some (JString [])
  /\ snd (Chat.onRequest (v8 (inr up)) (post sample_key d))
     = inr (json_response (translation_object (js "Translation not found.")) 200)
  /\ snd (Single.onRequest (v8 (inr up)) (post sample_key d))
     = inr (json_response (translation_object (js "Translation not found.")) 200).
Proof.
  intros up d.
  split; [vm_compute; reflexivity|].
  destruct (empty_text_is_not_found (v8 (inr up)) sample_key d (js "H3110") up
              (reply_of [])) as (C & S);
    [sample_exchange ..|].
  rewrite C, S. split; vm_compute; reflexivity.
Defined.

Lemma single_missing_candidates_is_500_witness :
  let up := success (JObject []) in
  let d := request_of "H3110" "fromLeet" in
  lookup (Some (JObject [])) (Name p_candidates) = None
  /\ snd (Chat.onRequest (v8 (inr up)) (post sample_key d))
     = inr (json_response (translation_object (js "Translation not found.")) 200)
  /\ snd (Single.onRequest (v8 (inr up)) (post sample_key d))
     = inr (json_response
              (error_object (js "Cannot read properties of undefined (reading '0')"))
              500).
Proof.
  intros up d.
  split; [vm_compute; reflexivity|].
  destruct (single_missing_candidates_is_500 (v8 (inr up)) sample_key d
              (js "H3110") up (JObject [])) as (_ & C & S);
    [sample_exchange ..|].
  rewrite C, S. split; vm_compute; reflexivity.
Defined.

(** C2, as the claim has it, fails: the single-direction handler answers a
    failure reply that carries [{ error: { message: "quota exceeded" } }]
    with the status-code text. *)
Lemma single_ignores_upstream_message :
  ok quota_exceeded = false
  /\ error_message
       (JObject [(js "error", JObject [(js "message", JString (js "quota exceeded"))])])
     = Some (JString (js "quota exceeded"))
  /\ snd (Single.onRequest (v8 (inr quota_exceeded))
            (post sample_key (request_of "H3110" "fromLeet")))
     = inr (json_response
              (error_object (js "Gemini API error: 429 Too Many Requests")) 500)
  /\ snd (Single.onRequest (v8 (inr quota_exceeded))
            (post sample_key (request_of "H3110" "fromLeet")))
     <> inr (json_response (error_object (js "quota exceeded")) 500).
Proof.
  split; [vm_compute; reflexivity|].
  split; [vm_compute; reflexivity|].
  split; [vm_compute; reflexivity|].
  intros H. vm_compute in H. discriminate H.
Qed.

Lemma upstream_failure_is_500_witness :
  let d := request_of "H3110" "fromLeet" in
  ok quota_exceeded = false
  /\ snd (Chat.onRequest (v8 (inr quota_exceeded)) (post sample_key d))
     = inr (json_response (error_object (js "quota exceeded")) 500)
  /\ snd (Single.onRequest (v8 (inr quota_exceeded)) (post sample_key d))
     = inr (json_response
              (error_object (js "Gemini API error: 429 Too Many Requests")) 500).
Proof.
  intros d.
  split; [vm_compute; reflexivity|].
  destruct (upstream_failure_is_500 (v8 (inr quota_exceeded)) sample_key d
              (js "H3110") quota_exceeded) as (_ & C & _ & S);
    [sample_exchange ..|].
  rewrite S.
  rewrite (C (JObject [(js "error", JObject [(js "message", JString (js "quota exceeded"))])])
             (js "quota exceeded")); [|sample_exchange ..].
  split; vm_compute; reflexivity.
Defined.

Lemma mode_selects_template_witness :
  let d := request_of "Hello" "toLeet" in
  exists rest r,
    Chat.onRequest (v8 (inr (success (reply_of (js "H3110"))))) (post sample_key d)
    = (ReadRequestBody
       :: FetchCall (geminiApiUrl (Some sample_key))
            (fetch_init (Chat.toLeet_head ++ [QUOTE] ++ js "Hello" ++ [QUOTE]
                         ++ Chat.toLeet_tail))
       :: rest, r).
Proof.
  intros d.
  destruct (mode_selects_template (v8 (inr (success (reply_of (js "H3110")))))
              sample_key d (js "Hello")) as (C & _);
    [sample_exchange ..|].
  apply C. vm_compute. reflexivity.
Defined.

Lemma other_mode_is_fromLeet_witness :
  let d := request_of "H3110" "FromLeet" in
  lookup (Some d) (Name p_mode) <> Some (JString (js "toLeet"))
  /\ exists rest response,
       Chat.onRequest (v8 (inr (success (reply_of (js "Hello"))))) (post sample_key d)
       = (ReadRequestBody
          :: FetchCall (geminiApiUrl (Some sample_key))
               (fetch_init (Chat.fromLeet_head ++ [QUOTE] ++ js "H3110" ++ [QUOTE]
                            ++ Chat.fromLeet_tail))
          :: rest, inr response)
       /\ status response <> 400.
Proof.
  intros d.
  assert (Hm : lookup (Some d) (Name p_mode) <> Some (JString (js "toLeet")))
    by (intros E; vm_compute in E; discriminate E).
  split; [exact Hm|].
  apply (other_mode_is_fromLeet (v8 (inr (success (reply_of (js "Hello")))))
           sample_key d (js "H3110")); [sample_exchange ..| exact Hm].
Defined.

(** * Beyond the interface contract *)

(** ** Traces of the parts *)

Lemma bind_trace {A B} (m : M A) (k : A -> M B) :
  fst (bind m k)
  = fst m ++ match snd m with inl _ => [] | inr a => fst (k a) end.
Proof.
  destruct m as [t [e|a]]; unfold bind; simpl.
  - symmetry. apply app_nil_r.
  - destruct (k a). reflexivity.
Qed.

Lemma try_catch_trace {A} (m : M A) (h : exn -> M A) :
  fst (try_catch m h)
  = fst m ++ match snd m with inl e => fst (h e) | inr _ => [] end.
Proof.
  destruct m as [t [e|a]]; unfold try_catch; simpl.
  - destruct (h e). reflexivity.
  - symmetry. apply app_nil_r.
Qed.

Lemma logs_only_bind {A B} (m : M A) (k : A -> M B) :
  logs_only m -> (forall a, logs_only (k a)) -> logs_only (bind m k).
Proof.
  unfold logs_only, console_only. intros Hm Hk. rewrite bind_trace.
  apply Forall_app. split; [exact Hm|].
  destruct (snd m); [constructor | apply Hk].
Qed.

Lemma logs_only_nil {A} (r : exn + A) : logs_only (([], r) : M A).
Proof. constructor. Qed.

Lemma logs_only_emit (ev : Event) : is_console ev = true -> logs_only (emit ev).
Proof. intros H. constructor; [exact H | constructor]. Qed.

Section Parts.

Variable rt : Runtime.

Lemma logs_only_get (v : value) (k : Key) : logs_only (get rt v k).
Proof. destruct v as [[]|]; apply logs_only_nil. Qed.

Lemma logs_only_to_string_value (v : value) : logs_only (to_string_value rt v).
Proof. destruct v; apply logs_only_nil. Qed.

Lemma logs_only_call_trim (v : value) : logs_only (call_trim rt v).
Proof. destruct v as [[]|]; apply logs_only_nil. Qed.

(** Closes a goal [logs_only m] for a computation made of reads, string
    conversions and console calls. *)
Ltac logging :=
  repeat first
    [ apply logs_only_nil
    | apply logs_only_get
    | apply logs_only_to_string_value
    | apply logs_only_call_trim
    | apply logs_only_emit; reflexivity
    | apply logs_only_bind; [|intro]
    | match goal with
      | |- logs_only (if ?b then _ else _) => destruct b
      end
    | progress unfold and_then, or_else, new_Error, ret, throw, lift ].

Lemma logs_only_chat_extract (d : JSON) : logs_only (Chat.extract rt d).
Proof. unfold Chat.extract. cbv zeta. logging. Qed.

Lemma logs_only_single_extract (d : JSON) : logs_only (Single.extract rt d).
Proof. unfold Single.extract. logging. Qed.

(** The prompt is built without a call on the platform. *)
Lemma chat_build_prompt_pure (mode inputText : value) :
  exists r, Chat.build_prompt rt mode inputText = ([], r).
Proof.
  unfold Chat.build_prompt.
  destruct (strict_eq_string _ _), inputText as [x|]; simpl;
    try (destruct (to_string rt x)); eexists; reflexivity.
Qed.

Lemma to_string_value_pure (v : value) :
  exists r, to_string_value rt v = ([], r).
Proof. destruct v; eexists; reflexivity. Qed.

(** Once [fetch] has resolved, the bidirectional handler reads the upstream
    body once and then only logs. *)
Lemma chat_relay_trace (up : UpstreamResponse) :
  exists c, fst (Chat.relay rt up) = ReadUpstreamBody :: c /\ console_only c.
Proof.
  unfold Chat.relay, Chat.upstream_failure, response_json.
  destruct (negb (ok up)); rewrite bind_assoc, bind_emit;
    (destruct (up_json up) as [e|d];
     [ exists []; split; [reflexivity | constructor]
     | rewrite bind_lift_inr; eexists; split; [reflexivity|] ]).
  - match goal with |- console_only (fst ?m) => change (logs_only m) end.
    logging.
  - match goal with |- console_only (fst ?m) => change (logs_only m) end.
    apply logs_only_bind; [apply logs_only_chat_extract|intro]. logging.
Qed.

(** The single-direction handler does the same on a success reply and
    touches nothing on a failure reply. *)
Lemma single_relay_trace (up : UpstreamResponse) :
  (ok up = false /\ fst (Single.relay rt up) = [])
  \/ (ok up = true
      /\ exists c, fst (Single.relay rt up) = ReadUpstreamBody :: c
                   /\ console_only c).
Proof.
  unfold Single.relay, Single.upstream_failure, response_json.
  destruct (ok up); [right|left]; (split; [reflexivity|]); [|reflexivity].
  cbn [negb]. rewrite bind_assoc, bind_emit.
  destruct (up_json up) as [e|d];
    [ exists []; split; [reflexivity | constructor]
    | rewrite bind_lift_inr; eexists; split; [reflexivity|] ].
  match goal with |- console_only (fst ?m) => change (logs_only m) end.
  apply logs_only_bind; [apply logs_only_single_extract|intro]. logging.
Qed.

End Parts.

(** ** One invocation, whatever the request and the platform *)

Section Invocation.

Variable rt : Runtime.

(** What the [catch] block makes of the [try] block. *)
Lemma try_catch_cases (m : M Response) (t : list Event) (r : Response) :
  try_catch m catch_block = (t, inr r) ->
  m = (t, inr r)
  \/ exists u e,
       m = (u, inl e)
       /\ t = u ++ [ConsoleError (js "Error in function:") (LogError e)]
       /\ r = json_response (error_object (message e)) 500.
Proof.
  destruct m as [u [e|a]]; unfold try_catch; simpl.
  - intros [= <- <-]. right. exists u, e. auto.
  - intros H. left. exact H.
Qed.

Lemma call_trim_inr (v : value) (t : list Event) (x : jsstring) :
  call_trim rt v = (t, inr x) -> exists s, v = Some (JString s) /\ x = trim s.
Proof.
  destruct v as [[| | |s| |]|]; simpl; try discriminate.
  intros [= _ <-]. exists s. auto.
Qed.

Lemma chat_relay_inr (up : UpstreamResponse) (t : list Event) (r : Response) :
  Chat.relay rt up = (t, inr r) ->
  exists s, r = json_response (translation_object (trim s)) 200.
Proof.
  unfold Chat.relay. destruct (negb (ok up)).
  - intros H. destruct (chat_upstream_failure_throws rt up t r H).
  - intros H.
    apply bind_inr in H as (? & ? & ? & _ & H & _).
    apply bind_inr in H as (? & ? & ? & _ & H & _).
    apply bind_inr in H as (? & ? & ? & T & H & _).
    apply call_trim_inr in T as (s & _ & ->).
    injection H as _ <-. exists s. reflexivity.
Qed.

Lemma single_relay_inr (up : UpstreamResponse) (t : list Event) (r : Response) :
  Single.relay rt up = (t, inr r) ->
  exists s, r = json_response (translation_object (trim s)) 200.
Proof.
  unfold Single.relay. destruct (negb (ok up)); [discriminate|].
  intros H.
  apply bind_inr in H as (? & ? & ? & _ & H & _).
  apply bind_inr in H as (? & ? & ? & _ & H & _).
  apply bind_inr in H as (? & ? & ? & T & H & _).
  apply call_trim_inr in T as (s & _ & ->).
  injection H as _ <-. exists s. reflexivity.
Qed.

(** What the [try] blocks return when they return. *)
Lemma chat_try_block_inr (context : Context) (t : list Event) (r : Response) :
  Chat.try_block rt context = (t, inr r) ->
  r = json_response (error_object (js "No text or mode provided")) 400
  \/ exists s, r = json_response (translation_object (trim s)) 200.
Proof.
  unfold Chat.try_block. cbv zeta. intros H.
  apply bind_inr in H as (? & ? & ? & _ & H & _).
  apply bind_inr in H as (? & ? & ? & _ & H & _).
  apply bind_inr in H as (? & ? & ? & _ & H & _).
  destruct (negb _ || negb _).
  - injection H as _ <-. left. reflexivity.
  - apply bind_inr in H as (? & ? & ? & _ & H & _).
    apply bind_inr in H as (? & ? & ? & _ & H & _).
    right. exact (chat_relay_inr _ _ _ H).
Qed.

Lemma single_try_block_inr (context : Context) (t : list Event) (r : Response) :
  Single.try_block rt context = (t, inr r) ->
  r = json_response (error_object (js "No text provided")) 400
  \/ exists s, r = json_response (translation_object (trim s)) 200.
Proof.
  unfold Single.try_block. cbv zeta. intros H.
  apply bind_inr in H as (? & ? & ? & _ & H & _).
  apply bind_inr in H as (? & ? & ? & _ & H & _).
  destruct (negb _).
  - injection H as _ <-. left. reflexivity.
  - apply bind_inr in H as (? & ? & ? & _ & H & _).
    apply bind_inr in H as (? & ? & ? & _ & H & _).
    right. exact (single_relay_inr _ _ _ H).
Qed.

(** The answers of the bidirectional handler, all of them. *)
Lemma chat_answers (context : Context) (t : list Event) (r : Response) :
  Chat.onRequest rt context = (t, inr r) ->
  r = method_not_allowed
  \/ (exists msg, r = json_response (error_object msg) 500)
  \/ r = json_response (error_object (js "No text or mode provided")) 400
  \/ exists s, r = json_response (translation_object (trim s)) 200.
Proof.
  unfold Chat.onRequest.
  destruct (negb (jsstring_eqb _ _)); [intros [= _ <-]; auto|].
  destruct (negb (truthy _)); [intros [= _ <-]; right; left; eexists; reflexivity|].
  intros H. apply try_catch_cases in H as [H | (u & e & _ & _ & ->)].
  - apply chat_try_block_inr in H as [-> | H]; auto.
  - right. left. eexists. reflexivity.
Qed.

Lemma single_answers (context : Context) (t : list Event) (r : Response) :
  Single.onRequest rt context = (t, inr r) ->
  r = method_not_allowed
  \/ (exists msg, r = json_response (error_object msg) 500)
  \/ r = json_response (error_object (js "No text provided")) 400
  \/ exists s, r = json_response (translation_object (trim s)) 200.
Proof.
  unfold Single.onRequest.
  destruct (negb (jsstring_eqb _ _)); [intros [= _ <-]; auto|].
  destruct (negb (truthy _)); [intros [= _ <-]; right; left; eexists; reflexivity|].
  intros H. apply try_catch_cases in H as [H | (u & e & _ & _ & ->)].
  - apply single_try_block_inr in H as [-> | H]; auto.
  - right. left. eexists. reflexivity.
Qed.

Lemma chat_responds (context : Context) :
  exists t r, Chat.onRequest rt context = (t, inr r).
Proof.
  unfold Chat.onRequest.
  destruct (negb (jsstring_eqb _ _)); [eexists _, _; reflexivity|].
  destruct (negb (truthy _)); [eexists _, _; reflexivity|].
  destruct (try_catch_responds (Chat.try_block rt context)) as (t & r & E & _).
  exists t, r. exact E.
Qed.

Lemma single_responds (context : Context) :
  exists t r, Single.onRequest rt context = (t, inr r).
Proof.
  unfold Single.onRequest.
  destruct (negb (jsstring_eqb _ _)); [eexists _, _; reflexivity|].
  destruct (negb (truthy _)); [eexists _, _; reflexivity|].
  destruct (try_catch_responds (Single.try_block rt context)) as (t & r & E & _).
  exists t, r. exact E.
Qed.

(** X1. Whenever the platform calls of an invocation settle (each of
    [request.json()], [fetch] and [apiResponse.json()] resolves, or rejects
    with an [Error] object), either handler returns a response, and one
    made in one of four ways: status 405 with the plain text and no
    [headers] option; status 500 with a one-field [{ error }] object;
    status 400 with the handler's fixed message; status 200 with a
    one-field [{ translation }] object.  The three JSON answers are made
    with the [Content-Type: application/json] option. *)
Theorem answers_have_four_shapes (context : Context) :
  (exists t r,
      Chat.onRequest rt context = (t, inr r)
      /\ (r = mkResponse (BodyText (js "Method Not Allowed")) 405 []
          \/ (exists msg,
                r = mkResponse (BodyJSON (JObject [(js "error", JString msg)]))
                      500 application_json)
          \/ r = mkResponse
                   (BodyJSON (JObject [(js "error",
                      JString (js "No text or mode provided"))]))
                   400 application_json
          \/ exists s,
               r = mkResponse (BodyJSON (JObject [(js "translation", JString s)]))
                     200 application_json))
  /\ (exists t r,
        Single.onRequest rt context = (t, inr r)
        /\ (r = mkResponse (BodyText (js "Method Not Allowed")) 405 []
            \/ (exists msg,
                  r = mkResponse (BodyJSON (JObject [(js "error", JString msg)]))
                        500 application_json)
            \/ r = mkResponse
                     (BodyJSON (JObject [(js "error", JString (js "No text provided"))]))
                     400 application_json
            \/ exists s,
                 r = mkResponse (BodyJSON (JObject [(js "translation", JString s)]))
                       200 application_json)).
Proof.
  split.
  - destruct (chat_responds context) as (t & r & E). exists t, r.
    split; [exact E|].
    destruct (chat_answers context t r E) as [-> | [(m & ->) | [-> | (s & ->)]]].
    + left. reflexivity.
    + right. left. exists m. reflexivity.
    + right. right. left. reflexivity.
    + right. right. right. exists (trim s). reflexivity.
  - destruct (single_responds context) as (t & r & E). exists t, r.
    split; [exact E|].
    destruct (single_answers context t r E) as [-> | [(m & ->) | [-> | (s & ->)]]].
    + left. reflexivity.
    + right. left. exists m. reflexivity.
    + right. right. left. reflexivity.
    + right. right. right. exists (trim s). reflexivity.
Qed.

Lemma trim_trimmed (s : jsstring) : trimmed (trim s).
Proof. destruct (trim_spec s) as (l & r & _ & _ & _ & H & T). split; assumption. Qed.

(** X2. The translation of every 200 answer, of either handler, has white
    space at neither end. *)
Theorem translations_are_trimmed (context : Context) (t : list Event)
    (r : Response) :
  Chat.onRequest rt context = (t, inr r)
  \/ Single.onRequest rt context = (t, inr r) ->
  status r = 200 ->
  exists s,
    body r = BodyJSON (JObject [(js "translation", JString s)])
    /\ (forall c, hd_error s = Some c -> is_white_space c = false)
    /\ (forall c, hd_error (rev s) = Some c -> is_white_space c = false).
Proof.
  intros [E | E] S.
  - destruct (chat_answers context t r E) as [-> | [(m & ->) | [-> | (s & ->)]]];
      try discriminate S.
    exists (trim s). split; [reflexivity | apply trim_trimmed].
  - destruct (single_answers context t r E) as [-> | [(m & ->) | [-> | (s & ->)]]];
      try discriminate S.
    exists (trim s). split; [reflexivity | apply trim_trimmed].
Qed.

End Invocation.

(** ** The order of the calls *)

Section Order.

Variable rt : Runtime.

Lemma get_pure (v : value) (k : Key) : exists r, get rt v k = ([], r).
Proof. destruct v as [[]|]; eexists; reflexivity. Qed.

Lemma console_only_app (a b : list Event) :
  console_only a -> console_only b -> console_only (a ++ b).
Proof. intros Ha Hb. apply Forall_app. split; assumption. Qed.

Lemma console_only_catch (e : exn) : console_only (fst (catch_block e)).
Proof. constructor; [reflexivity | constructor]. Qed.

(** The trace of a [try] under the [catch], from the trace of the [try]. *)
Lemma caught_trace (m : M Response) :
  exists c, fst (try_catch m catch_block) = fst m ++ c /\ console_only c.
Proof.
  rewrite try_catch_trace. destruct (snd m) as [e|r].
  - eexists. split; [reflexivity | apply console_only_catch].
  - exists []. split; [reflexivity | constructor].
Qed.

Lemma after_trace {A} (t : list Event) (m : M A) : fst (after t m) = t ++ fst m.
Proof. reflexivity. Qed.

(** From [fetch] on, in the bidirectional handler. *)
Lemma chat_fetch_trace (url : jsstring) (init : FetchInit) :
  exists c,
    console_only c
    /\ (fst (try_catch
                (apiResponse <- await_fetch rt url init ;;
                 Chat.relay rt apiResponse)
                catch_block)
        = FetchCall url init :: c
        \/ fst (try_catch
                   (apiResponse <- await_fetch rt url init ;;
                    Chat.relay rt apiResponse)
                   catch_block)
           = FetchCall url init :: ReadUpstreamBody :: c).
Proof.
  rewrite await_fetch_bind, try_catch_after, after_trace.
  destruct (fetch rt url init) as [e|up].
  - eexists. split; [|left; reflexivity]. apply console_only_catch.
  - rewrite bind_lift_inr.
    destruct (caught_trace (Chat.relay rt up)) as (c & -> & Hc).
    destruct (chat_relay_trace rt up) as (c' & -> & Hc').
    exists (c' ++ c). split; [apply console_only_app; assumption|].
    right. reflexivity.
Qed.

Lemma single_fetch_trace (url : jsstring) (init : FetchInit) :
  exists c,
    console_only c
    /\ (fst (try_catch
                (apiResponse <- await_fetch rt url init ;;
                 Single.relay rt apiResponse)
                catch_block)
        = FetchCall url init :: c
        \/ fst (try_catch
                   (apiResponse <- await_fetch rt url init ;;
                    Single.relay rt apiResponse)
                   catch_block)
           = FetchCall url init :: ReadUpstreamBody :: c).
Proof.
  rewrite await_fetch_bind, try_catch_after, after_trace.
  destruct (fetch rt url init) as [e|up].
  - eexists. split; [|left; reflexivity]. apply console_only_catch.
  - rewrite bind_lift_inr.
    destruct (caught_trace (Single.relay rt up)) as (c & -> & Hc).
    destruct (single_relay_trace rt up) as [[_ ->] | [_ (c' & -> & Hc')]].
    + exists c. split; [exact Hc | left; reflexivity].
    + exists (c' ++ c). split; [apply console_only_app; assumption|].
      right. reflexivity.
Qed.

(** X3. In one invocation either handler calls the platform in a fixed
    order and each call at most once: nothing; or the request body read; or
    that and one [fetch]; or those and one read of the upstream body; console
    calls apart, which come last.  The [fetch], where there is one, is a
    POST to the Gemini URL that ends in the configured key, with the JSON
    header and a body made of one prompt and the four safety settings. *)
Theorem calls_in_order (context : Context) :
  let url := geminiApiUrl (GEMINI_API_KEY (env context)) in
  (fst (Chat.onRequest rt context) = []
   \/ exists c,
        console_only c
        /\ (fst (Chat.onRequest rt context) = ReadRequestBody :: c
            \/ exists prompt,
                 fst (Chat.onRequest rt context)
                 = ReadRequestBody
                   :: FetchCall url
                        (mkInit (js "POST") application_json (apiRequestBody prompt))
                   :: c
                 \/ fst (Chat.onRequest rt context)
                    = ReadRequestBody
                      :: FetchCall url
                           (mkInit (js "POST") application_json (apiRequestBody prompt))
                      :: ReadUpstreamBody :: c))
  /\ (fst (Single.onRequest rt context) = []
      \/ exists c,
           console_only c
           /\ (fst (Single.onRequest rt context) = ReadRequestBody :: c
               \/ exists prompt,
                    fst (Single.onRequest rt context)
                    = ReadRequestBody
                      :: FetchCall url
                           (mkInit (js "POST") application_json (apiRequestBody prompt))
                      :: c
                    \/ fst (Single.onRequest rt context)
                       = ReadRequestBody
                         :: FetchCall url
                              (mkInit (js "POST") application_json (apiRequestBody prompt))
                         :: ReadUpstreamBody :: c)).
Proof.
  intros url. destruct context as [[m j] [key]]. cbn [env GEMINI_API_KEY] in url.
  split.
  - unfold Chat.onRequest. cbn [request method env GEMINI_API_KEY].
    destruct (negb (jsstring_eqb _ _)); [left; reflexivity|].
    destruct (negb (truthy _)); [left; reflexivity|]. right.
    unfold Chat.try_block. cbn [request env GEMINI_API_KEY]. fold url.
    destruct j as [e|d].
    { exists [ConsoleError (js "Error in function:") (LogError e)].
      split; [apply console_only_catch | left; reflexivity]. }
    rewrite request_json_ok, try_catch_after, after_trace.
    destruct (get_pure (Some d) (Name p_text)) as ([e|inputText] & ->).
    { eexists. split; [|left; reflexivity]. apply console_only_catch. }
    rewrite (bind_ret_l inputText).
    destruct (get_pure (Some d) (Name p_mode)) as ([e|mode] & ->).
    { eexists. split; [|left; reflexivity]. apply console_only_catch. }
    rewrite (bind_ret_l mode).
    destruct (negb (truthy inputText) || negb (truthy mode)).
    { exists []. split; [constructor | left; reflexivity]. }
    destruct (chat_build_prompt_pure rt mode inputText) as ([e|prompt] & ->).
    { eexists. split; [|left; reflexivity]. apply console_only_catch. }
    rewrite (bind_ret_l prompt).
    destruct (chat_fetch_trace url (fetch_init prompt)) as (c & Hc & [-> | ->]);
      exists c; (split; [exact Hc|]); right; exists prompt; [left|right];
      reflexivity.
  - unfold Single.onRequest. cbn [request method env GEMINI_API_KEY].
    destruct (negb (jsstring_eqb _ _)); [left; reflexivity|].
    destruct (negb (truthy _)); [left; reflexivity|]. right.
    unfold Single.try_block. cbn [request env GEMINI_API_KEY]. fold url.
    destruct j as [e|d].
    { exists [ConsoleError (js "Error in function:") (LogError e)].
      split; [apply console_only_catch | left; reflexivity]. }
    rewrite request_json_ok, try_catch_after, after_trace.
    destruct (get_pure (Some d) (Name p_text)) as ([e|leetText] & ->).
    { eexists. split; [|left; reflexivity]. apply console_only_catch. }
    rewrite (bind_ret_l leetText).
    destruct (negb (truthy leetText)).
    { exists []. split; [constructor | left; reflexivity]. }
    destruct (to_string_value_pure rt leetText) as ([e|s] & ->).
    { eexists. split; [|left; reflexivity]. apply console_only_catch. }
    rewrite (bind_ret_l s).
    destruct (single_fetch_trace url (fetch_init (Single.prompt_of s)))
      as (c & Hc & [-> | ->]);
      exists c; (split; [exact Hc|]); right; exists (Single.prompt_of s);
      [left|right]; reflexivity.
Qed.

End Order.

(** ** Validation *)

Section Validation.

Variable rt : Runtime.

(** Past validation, whatever the type of [text]. *)
Lemma chat_validated (k : jsstring) (d : JSON) :
  k <> [] -> d <> JNull ->
  truthy (lookup (Some d) (Name p_text)) = true ->
  truthy (lookup (Some d) (Name p_mode)) = true ->
  Chat.onRequest rt (post k d)
  = after [ReadRequestBody]
      (try_catch
         (prompt <- Chat.build_prompt rt (lookup (Some d) (Name p_mode))
                      (lookup (Some d) (Name p_text)) ;;
          apiResponse <- await_fetch rt (geminiApiUrl (Some k)) (fetch_init prompt) ;;
          Chat.relay rt apiResponse)
         catch_block).
Proof.
  intros Hk Hd Ht Hm. unfold post. rewrite (chat_post rt k _ Hk).
  unfold Chat.try_block. cbn [request env GEMINI_API_KEY].
  rewrite request_json_ok, !(get_root rt d _ Hd), !bind_ret_l.
  rewrite Ht, Hm. cbn [negb orb]. apply try_catch_after.
Qed.

Lemma single_validated (k : jsstring) (d : JSON) :
  k <> [] -> d <> JNull ->
  truthy (lookup (Some d) (Name p_text)) = true ->
  Single.onRequest rt (post k d)
  = after [ReadRequestBody]
      (try_catch
         (s <- to_string_value rt (lookup (Some d) (Name p_text)) ;;
          apiResponse <- await_fetch rt (geminiApiUrl (Some k))
                           (fetch_init (Single.prompt_of s)) ;;
          Single.relay rt apiResponse)
         catch_block).
Proof.
  intros Hk Hd Ht. unfold post. rewrite (single_post rt k _ Hk).
  unfold Single.try_block. cbn [request env GEMINI_API_KEY].
  rewrite request_json_ok, !(get_root rt d _ Hd), !bind_ret_l.
  rewrite Ht. cbn [negb]. apply try_catch_after.
Qed.

Lemma after_inr {A} (u : list Event) (m : M A) (t : list Event) (a : A) :
  after u m = (t, inr a) -> exists t', m = (t', inr a).
Proof. destruct m as [t' r]. unfold after. simpl. intros [= _ ->]. eauto. Qed.

(** X4. With the key configured and a parsed body other than [null], the
    answer is 400 exactly when [text] is falsy (absent, [null], [false],
    [0] or the empty string) or, in the bidirectional handler, [mode] is. *)
Theorem rejected_iff_falsy (k : jsstring) (d : JSON) :
  k <> [] -> d <> JNull ->
  (exists t r,
      Chat.onRequest rt (post k d) = (t, inr r)
      /\ (status r = 400
          <-> truthy (lookup (Some d) (Name p_text)) = false
              \/ truthy (lookup (Some d) (Name p_mode)) = false))
  /\ (exists t r,
        Single.onRequest rt (post k d) = (t, inr r)
        /\ (status r = 400 <-> truthy (lookup (Some d) (Name p_text)) = false)).
Proof.
  intros Hk Hd. split.
  - destruct (truthy (lookup (Some d) (Name p_text))) eqn:Et;
      [destruct (truthy (lookup (Some d) (Name p_mode))) eqn:Em|].
    + destruct (chat_responds rt (post k d)) as (t & r & E). exists t, r.
      split; [exact E|]. split; [|intros [F|F]; discriminate F].
      intros S. exfalso. rewrite (chat_validated k d Hk Hd Et Em) in E.
      apply after_inr in E as (t' & E).
      apply try_catch_cases in E as [E | (u & e & _ & _ & ->)]; [|discriminate S].
      apply bind_inr in E as (? & ? & ? & _ & E & _).
      apply bind_inr in E as (? & ? & ? & _ & E & _).
      apply chat_relay_inr in E as (s & ->). discriminate S.
    + eexists _, _. split; [apply (chat_rejects rt k d Hk Hd)|].
      * rewrite Et, Em. reflexivity.
      * split; [auto | reflexivity].
    + eexists _, _. split; [apply (chat_rejects rt k d Hk Hd)|].
      * rewrite Et. reflexivity.
      * split; [auto | reflexivity].
  - destruct (truthy (lookup (Some d) (Name p_text))) eqn:Et.
    + destruct (single_responds rt (post k d)) as (t & r & E). exists t, r.
      split; [exact E|]. split; [|discriminate].
      intros S. exfalso. rewrite (single_validated k d Hk Hd Et) in E.
      apply after_inr in E as (t' & E).
      apply try_catch_cases in E as [E | (u & e & _ & _ & ->)]; [|discriminate S].
      apply bind_inr in E as (? & ? & ? & _ & E & _).
      apply bind_inr in E as (? & ? & ? & _ & E & _).
      apply single_relay_inr in E as (s & ->). discriminate S.
    + eexists _, _. split; [apply (single_rejects rt k d Hk Hd Et)|].
      split; [auto | reflexivity].
Qed.

(** X5. With the key configured, a body that parses to [null] is answered
    500 by both handlers (reading [text] of it throws), and a body that
    parses to a boolean, a number, a string or an array is answered 400: it
    has no [text].  Nothing is sent upstream either way. *)
Theorem body_that_is_no_object (k : jsstring) :
  k <> [] ->
  (Chat.onRequest rt (post k JNull)
   = ([ReadRequestBody;
       ConsoleError (js "Error in function:")
         (LogError (TypeError (cannot_read rt (Some JNull) (js "text"))))],
      inr (mkResponse
             (BodyJSON (JObject [(js "error",
                JString (cannot_read rt (Some JNull) (js "text")))]))
             500 application_json))
   /\ Single.onRequest rt (post k JNull)
      = ([ReadRequestBody;
          ConsoleError (js "Error in function:")
            (LogError (TypeError (cannot_read rt (Some JNull) (js "text"))))],
         inr (mkResponse
                (BodyJSON (JObject [(js "error",
                   JString (cannot_read rt (Some JNull) (js "text")))]))
                500 application_json)))
  /\ (forall d,
        d <> JNull -> (forall fields, d <> JObject fields) ->
        Chat.onRequest rt (post k d)
        = ([ReadRequestBody],
           inr (mkResponse
                  (BodyJSON (JObject [(js "error",
                     JString (js "No text or mode provided"))]))
                  400 application_json))
        /\ Single.onRequest rt (post k d)
           = ([ReadRequestBody],
              inr (mkResponse
                     (BodyJSON (JObject [(js "error", JString (js "No text provided"))]))
                     400 application_json))).
Proof.
  intros Hk. split.
  - unfold post. rewrite (chat_post rt k _ Hk), (single_post rt k _ Hk).
    split; reflexivity.
  - intros d Hd Ho.
    assert (F : lookup (Some d) (Name p_text) = None).
    { destruct d; try reflexivity. destruct (Ho fields eq_refl). }
    split.
    + apply (chat_rejects rt k d Hk Hd). rewrite F. reflexivity.
    + apply (single_rejects rt k d Hk Hd). rewrite F. reflexivity.
Qed.

(** X6. A request is handled by its [text] and, in the bidirectional
    handler, its [mode], and by nothing else in the body: two parsed bodies
    that agree on these get the same calls and the same answer.  The
    single-direction handler does not look at [mode]. *)
Theorem only_text_and_mode_matter (m : jsstring) (e : Env) (d1 d2 : JSON) :
  d1 <> JNull -> d2 <> JNull ->
  lookup (Some d1) (Name p_text) = lookup (Some d2) (Name p_text) ->
  (lookup (Some d1) (Name p_mode) = lookup (Some d2) (Name p_mode) ->
   Chat.onRequest rt (mkContext (mkRequest m (inr d1)) e)
   = Chat.onRequest rt (mkContext (mkRequest m (inr d2)) e))
  /\ Single.onRequest rt (mkContext (mkRequest m (inr d1)) e)
     = Single.onRequest rt (mkContext (mkRequest m (inr d2)) e).
Proof.
  intros H1 H2 Ht. split.
  - intros Hm. unfold Chat.onRequest, Chat.try_block.
    cbn [request method env].
    rewrite !request_json_ok, !(get_root rt d1 _ H1), !(get_root rt d2 _ H2).
    rewrite Ht, Hm. reflexivity.
  - unfold Single.onRequest, Single.try_block. cbn [request method env].
    rewrite !request_json_ok, !(get_root rt d1 _ H1), !(get_root rt d2 _ H2).
    rewrite Ht. reflexivity.
Qed.

(** X7. The request body is read exactly when the method is POST and the
    key is a non-empty string: an empty-string key stops the request like a
    missing one. *)
Theorem body_read_iff_gates_pass (context : Context) :
  (fst (Chat.onRequest rt context) = []
   <-> method (request context) <> js "POST"
       \/ GEMINI_API_KEY (env context) = None
       \/ GEMINI_API_KEY (env context) = Some [])
  /\ (fst (Single.onRequest rt context) = []
      <-> method (request context) <> js "POST"
          \/ GEMINI_API_KEY (env context) = None
          \/ GEMINI_API_KEY (env context) = Some []).
Proof.
  destruct context as [[m j] [key]]. cbn [request method env GEMINI_API_KEY].
  unfold Chat.onRequest, Single.onRequest. cbn [request method env GEMINI_API_KEY].
  unfold jsstring_eqb. destruct (list_eq_dec N.eq_dec m (js "POST")) as [Em|Em].
  - destruct key as [[|c key]|]; cbn [option_map truthy negb].
    + split; split; auto.
    + unfold Chat.try_block, Single.try_block, request_json.
      rewrite !try_catch_trace, !bind_trace.
      split; split; try discriminate; intros [H|[H|H]]; try discriminate H;
        contradiction.
    + split; split; auto.
  - split; split; auto.
Qed.

End Validation.

(** ** Failures on the way *)

Section Failures.

Variable rt : Runtime.

(** X8. When [fetch] itself rejects (the network call fails) both handlers
    log the rejection and answer 500 with its message; the upstream body is
    not read. *)
Theorem fetch_rejection_is_500 (k : jsstring) (d : JSON) (s : jsstring) (e : exn) :
  k <> [] ->
  lookup (Some d) (Name p_text) = Some (JString s) -> s <> [] ->
  truthy (lookup (Some d) (Name p_mode)) = true ->
  (forall url init, fetch rt url init = inl e) ->
  (exists prompt,
      Chat.onRequest rt (post k d)
      = ([ReadRequestBody;
          FetchCall (geminiApiUrl (Some k)) (fetch_init prompt);
          ConsoleError (js "Error in function:") (LogError e)],
         inr (mkResponse (BodyJSON (JObject [(js "error", JString (message e))]))
                500 application_json)))
  /\ (exists prompt,
        Single.onRequest rt (post k d)
        = ([ReadRequestBody;
            FetchCall (geminiApiUrl (Some k)) (fetch_init prompt);
            ConsoleError (js "Error in function:") (LogError e)],
           inr (mkResponse (BodyJSON (JObject [(js "error", JString (message e))]))
                  500 application_json))).
Proof.
  intros Hk Ht Hs Hm Hf. split; eexists.
  - rewrite (chat_accepts rt k d s Hk Ht Hs Hm), Hf. reflexivity.
  - rewrite (single_accepts rt k d s Hk Ht Hs), Hf. reflexivity.
Qed.

(** X9. A success reply whose body is not JSON ([apiResponse.json()]
    rejects with [e]) is answered 500 with [e]'s message by both handlers,
    after one read of that body. *)
Theorem unparseable_success_body_is_500 (k : jsstring) (d : JSON) (s : jsstring)
    (up : UpstreamResponse) (e : exn) :
  k <> [] ->
  lookup (Some d) (Name p_text) = Some (JString s) -> s <> [] ->
  truthy (lookup (Some d) (Name p_mode)) = true ->
  (forall url init, fetch rt url init = inr up) ->
  ok up = true -> up_json up = inl e ->
  (exists prompt,
      Chat.onRequest rt (post k d)
      = ([ReadRequestBody;
          FetchCall (geminiApiUrl (Some k)) (fetch_init prompt);
          ReadUpstreamBody;
          ConsoleError (js "Error in function:") (LogError e)],
         inr (mkResponse (BodyJSON (JObject [(js "error", JString (message e))]))
                500 application_json)))
  /\ (exists prompt,
        Single.onRequest rt (post k d)
        = ([ReadRequestBody;
            FetchCall (geminiApiUrl (Some k)) (fetch_init prompt);
            ReadUpstreamBody;
            ConsoleError (js "Error in function:") (LogError e)],
           inr (mkResponse (BodyJSON (JObject [(js "error", JString (message e))]))
                  500 application_json))).
Proof.
  intros Hk Ht Hs Hm Hf Hok Hj. split; eexists.
  - rewrite (chat_accepts rt k d s Hk Ht Hs Hm), Hf, bind_lift_inr.
    unfold Chat.relay, response_json. rewrite Hok, Hj. reflexivity.
  - rewrite (single_accepts rt k d s Hk Ht Hs), Hf, bind_lift_inr.
    unfold Single.relay, response_json. rewrite Hok, Hj. reflexivity.
Qed.

(** X10. On a failure reply the two handlers part.  The bidirectional one
    reads the error body first: where that is not JSON it answers 500 with
    the parse failure's message, not with the status text.  The
    single-direction one never reads the body: its calls and its answer are
    the same whatever the body holds. *)
Theorem failure_body_read_or_not (k : jsstring) (d : JSON) (s : jsstring)
    (up : UpstreamResponse) :
  k <> [] ->
  lookup (Some d) (Name p_text) = Some (JString s) -> s <> [] ->
  truthy (lookup (Some d) (Name p_mode)) = true ->
  (forall url init, fetch rt url init = inr up) ->
  ok up = false ->
  (forall e,
      up_json up = inl e ->
      exists prompt,
        Chat.onRequest rt (post k d)
        = ([ReadRequestBody;
            FetchCall (geminiApiUrl (Some k)) (fetch_init prompt);
            ReadUpstreamBody;
            ConsoleError (js "Error in function:") (LogError e)],
           inr (mkResponse (BodyJSON (JObject [(js "error", JString (message e))]))
                  500 application_json)))
  /\ (exists prompt,
        Single.onRequest rt (post k d)
        = ([ReadRequestBody;
            FetchCall (geminiApiUrl (Some k)) (fetch_init prompt);
            ConsoleError (js "Error in function:")
              (LogError (Error (js "Gemini API error: "
                                ++ string_of_N (up_status up) ++ js " "
                                ++ up_statusText up)))],
           inr (mkResponse
                  (BodyJSON (JObject [(js "error",
                     JString (js "Gemini API error: " ++ string_of_N (up_status up)
                              ++ js " " ++ up_statusText up))]))
                  500 application_json))).
Proof.
  intros Hk Ht Hs Hm Hf Hok. split.
  - intros e Hj. eexists.
    rewrite (chat_accepts rt k d s Hk Ht Hs Hm), Hf, bind_lift_inr.
    unfold Chat.relay, Chat.upstream_failure, response_json.
    rewrite Hok, Hj. reflexivity.
  - eexists. rewrite (single_accepts rt k d s Hk Ht Hs), Hf, bind_lift_inr.
    unfold Single.relay, Single.upstream_failure. rewrite Hok. reflexivity.
Qed.

Lemma call_trim_not_string (x : JSON) :
  truthy (Some x) = true -> (forall s, x <> JString s) ->
  call_trim rt (Some x)
  = throw (TypeError (not_a_function rt (js "translation.trim"))).
Proof.
  intros T H. destruct x; try reflexivity; try discriminate T.
  destruct (H s eq_refl).
Qed.

(** X11. Where the nested text of a success reply is truthy and not a
    string (a number, [true], an array, an object), [translation.trim] is
    not a function: both handlers answer 500, not the fallback. *)
Theorem text_that_is_no_string_is_500 (k : jsstring) (d : JSON) (s : jsstring)
    (up : UpstreamResponse) (rd x : JSON) :
  k <> [] ->
  lookup (Some d) (Name p_text) = Some (JString s) -> s <> [] ->
  truthy (lookup (Some d) (Name p_mode)) = true ->
  (forall url init, fetch rt url init = inr up) ->
  ok up = true -> up_json up = inr rd ->
  nested_text rd = Some x -> truthy (Some x) = true ->
  (forall t, x <> JString t) ->
  snd (Chat.onRequest rt (post k d))
  = inr (mkResponse
           (BodyJSON (JObject [(js "error",
              JString (not_a_function rt (js "translation.trim")))]))
           500 application_json)
  /\ snd (Single.onRequest rt (post k d))
     = inr (mkResponse
              (BodyJSON (JObject [(js "error",
                 JString (not_a_function rt (js "translation.trim")))]))
              500 application_json).
Proof.
  intros Hk Ht Hs Hm Hf Hok Hj Hn T Hx. split.
  - rewrite (chat_reply rt k d s up rd Hk Ht Hs Hm Hf Hok Hj).
    rewrite (chat_extract_total rt rd (nested_text_not_null rd _ Hn)), Hn, T.
    rewrite bind_ret_l, (call_trim_not_string x T Hx). reflexivity.
  - rewrite (single_reply rt k d s up rd Hk Ht Hs Hf Hok Hj).
    rewrite (single_extract_defined rt rd _ Hn), T.
    rewrite bind_ret_l, (call_trim_not_string x T Hx). reflexivity.
Qed.

Lemma trim_white_space (t : jsstring) :
  forallb is_white_space t = true -> trim t = [].
Proof.
  intros H. unfold trim.
  assert (E : trimStart t = []).
  { induction t as [|c t IH]; [reflexivity|]. simpl in *.
    apply andb_prop in H as [Hc Ht]. rewrite Hc. exact (IH Ht). }
  rewrite E. reflexivity.
Qed.

(** X12. A nested text made of white space only is truthy: both handlers
    answer 200 with the empty translation, not with the fallback. *)
Theorem white_space_text_is_empty_translation (k : jsstring) (d : JSON)
    (s : jsstring) (up : UpstreamResponse) (rd : JSON) (t : jsstring) :
  k <> [] ->
  lookup (Some d) (Name p_text) = Some (JString s) -> s <> [] ->
  truthy (lookup (Some d) (Name p_mode)) = true ->
  (forall url init, fetch rt url init = inr up) ->
  ok up = true -> up_json up = inr rd ->
  nested_text rd = Some (JString t) -> t <> [] ->
  forallb is_white_space t = true ->
  snd (Chat.onRequest rt (post k d))
  = inr (mkResponse (BodyJSON (JObject [(js "translation", JString [])]))
           200 application_json)
  /\ snd (Single.onRequest rt (post k d))
     = inr (mkResponse (BodyJSON (JObject [(js "translation", JString [])]))
              200 application_json).
Proof.
  intros Hk Ht Hs Hm Hf Hok Hj Hn Hne Hw.
  assert (T : truthy (Some (JString t)) = true)
    by (destruct t; [contradiction | reflexivity]).
  split.
  - rewrite (chat_reply rt k d s up rd Hk Ht Hs Hm Hf Hok Hj).
    rewrite (chat_extract_total rt rd (nested_text_not_null rd _ Hn)), Hn, T.
    rewrite bind_ret_l. cbn [call_trim]. rewrite (trim_white_space t Hw).
    reflexivity.
  - rewrite (single_reply rt k d s up rd Hk Ht Hs Hf Hok Hj).
    rewrite (single_extract_defined rt rd _ Hn), T.
    rewrite bind_ret_l. cbn [call_trim]. rewrite (trim_white_space t Hw).
    reflexivity.
Qed.

(** X13. A 500 answer is either the missing-key answer, given before
    anything is done, or comes from the [catch] block: then the last call of
    the invocation is the [console.error] of the caught error, and the
    [error] field is that error's message. *)
Theorem failures_are_logged (context : Context) (t : list Event) (r : Response) :
  Chat.onRequest rt context = (t, inr r)
  \/ Single.onRequest rt context = (t, inr r) ->
  status r = 500 ->
  (t = []
   /\ exists msg,
        r = mkResponse (BodyJSON (JObject [(js "error", JString msg)]))
              500 application_json)
  \/ exists u e,
       t = u ++ [ConsoleError (js "Error in function:") (LogError e)]
       /\ r = mkResponse (BodyJSON (JObject [(js "error", JString (message e))]))
                500 application_json.
Proof.
  intros [E | E] S.
  - unfold Chat.onRequest in E.
    destruct (negb (jsstring_eqb _ _)); [injection E as _ <-; discriminate S|].
    destruct (negb (truthy _)).
    { injection E as <- <-. left. split; [reflexivity | eexists; reflexivity]. }
    apply try_catch_cases in E as [E | (u & e & _ & -> & ->)].
    + apply chat_try_block_inr in E as [-> | (s & ->)]; discriminate S.
    + right. exists u, e. split; reflexivity.
  - unfold Single.onRequest in E.
    destruct (negb (jsstring_eqb _ _)); [injection E as _ <-; discriminate S|].
    destruct (negb (truthy _)).
    { injection E as <- <-. left. split; [reflexivity | eexists; reflexivity]. }
    apply try_catch_cases in E as [E | (u & e & _ & -> & ->)].
    + apply single_try_block_inr in E as [-> | (s & ->)]; discriminate S.
    + right. exists u, e. split; reflexivity.
Qed.

End Failures.

(** ** Values that are no strings *)

Section Printing.

Variable rt : Runtime.

(** X14. A truthy [text] that is no string, and whose numbers are safe
    integers, is accepted and printed into the prompt as a template literal
    prints it (an integer in decimal, [true], an array joined with commas,
    an object as [[object Object]]); where it cannot be printed (an object
    with a [toString] field of its own) the conversion throws and the
    answer is 500, with nothing sent upstream. *)
Theorem text_is_printed_into_the_prompt (k : jsstring) (d x : JSON) :
  k <> [] -> d <> JNull ->
  lookup (Some d) (Name p_text) = Some x -> truthy (Some x) = true ->
  safe_numbers x = true ->
  truthy (lookup (Some d) (Name p_mode)) = true ->
  (forall s,
      to_string rt x = inr s ->
      (exists rest r,
          Chat.onRequest rt (post k d)
          = (ReadRequestBody
             :: FetchCall (geminiApiUrl (Some k))
                  (fetch_init
                     (if strict_eq_string (lookup (Some d) (Name p_mode)) (js "toLeet")
                      then Chat.toLeet_head ++ [QUOTE] ++ s ++ [QUOTE]
                           ++ Chat.toLeet_tail
                      else Chat.fromLeet_head ++ [QUOTE] ++ s ++ [QUOTE]
                           ++ Chat.fromLeet_tail))
             :: rest, r))
      /\ (exists rest r,
            Single.onRequest rt (post k d)
            = (ReadRequestBody
               :: FetchCall (geminiApiUrl (Some k))
                    (fetch_init (Single.prompt_head ++ [QUOTE] ++ s ++ [QUOTE]
                                 ++ Single.prompt_tail))
               :: rest, r)))
  /\ (forall e,
        to_string rt x = inl e ->
        Chat.onRequest rt (post k d)
        = ([ReadRequestBody; ConsoleError (js "Error in function:") (LogError e)],
           inr (mkResponse (BodyJSON (JObject [(js "error", JString (message e))]))
                  500 application_json))
        /\ Single.onRequest rt (post k d)
           = ([ReadRequestBody; ConsoleError (js "Error in function:") (LogError e)],
              inr (mkResponse (BodyJSON (JObject [(js "error", JString (message e))]))
                     500 application_json))).
Proof.
  intros Hk Hd Hx T _ Hm.
  assert (Ht : truthy (lookup (Some d) (Name p_text)) = true)
    by (rewrite Hx; exact T).
  rewrite (chat_validated rt k d Hk Hd Ht Hm), (single_validated rt k d Hk Hd Ht).
  rewrite Hx. unfold Chat.build_prompt. cbn [to_string_value].
  split.
  - intros s Hs. rewrite Hs. split.
    + destruct (strict_eq_string _ _); rewrite bind_lift_inr, bind_ret_l;
        rewrite await_fetch_bind, try_catch_after, after_after;
        match goal with
        | |- context [try_catch ?m ?h] => destruct (try_catch m h) as [rest r]
        end; exists rest, r; reflexivity.
    + rewrite bind_lift_inr, await_fetch_bind, try_catch_after, after_after.
      match goal with
      | |- context [try_catch ?m ?h] => destruct (try_catch m h) as [rest r]
      end. exists rest, r. reflexivity.
  - intros e He. rewrite He. split; [|reflexivity].
    destruct (strict_eq_string _ _); reflexivity.
Qed.

(** X15. In the bidirectional handler a truthy [error.message] of a failure
    reply that is no string, and whose numbers are safe integers, is printed
    the same way into the [error] field ([new Error(x)] converts it); where
    it cannot be printed, the answer is still 500, with the conversion's own
    message. *)
Theorem failure_message_is_printed (k : jsstring) (d : JSON) (s : jsstring)
    (up : UpstreamResponse) (eb x : JSON) :
  k <> [] ->
  lookup (Some d) (Name p_text) = Some (JString s) -> s <> [] ->
  truthy (lookup (Some d) (Name p_mode)) = true ->
  (forall url init, fetch rt url init = inr up) ->
  ok up = false -> up_json up = inr eb ->
  error_message eb = Some x -> truthy (Some x) = true ->
  safe_numbers x = true ->
  (forall m,
      to_string rt x = inr m ->
      snd (Chat.onRequest rt (post k d))
      = inr (mkResponse (BodyJSON (JObject [(js "error", JString m)]))
               500 application_json))
  /\ (forall e,
        to_string rt x = inl e ->
        snd (Chat.onRequest rt (post k d))
        = inr (mkResponse (BodyJSON (JObject [(js "error", JString (message e))]))
                 500 application_json)).
Proof.
  intros Hk Ht Hs Hm Hf Hok Hj He T _.
  assert (Hn : eb <> JNull) by (intros ->; discriminate).
  rewrite (chat_accepts rt k d s Hk Ht Hs Hm), Hf, bind_lift_inr.
  rewrite (chat_relay_failure rt up eb Hok Hj Hn), He, T.
  unfold new_Error. cbn [to_string_value].
  split; intros y Hy; rewrite Hy; reflexivity.
Qed.

End Printing.

(** ** These properties at sample exchanges *)

Lemma translations_are_trimmed_witness :
  let rt := v8 (inr (success (reply_of (js "  Hello  ")))) in
  let context := post sample_key (request_of "H3110" "fromLeet") in
  let r := json_response (translation_object (js "Hello")) 200 in
  Chat.onRequest rt context = (fst (Chat.onRequest rt context), inr r)
  /\ status r = 200
  /\ exists s,
       body r = BodyJSON (JObject [(js "translation", JString s)])
       /\ (forall c, hd_error s = Some c -> is_white_space c = false)
       /\ (forall c, hd_error (rev s) = Some c -> is_white_space c = false).
Proof.
  intros rt context r.
  assert (E : Chat.onRequest rt context = (fst (Chat.onRequest rt context), inr r))
    by (vm_compute; reflexivity).
  split; [exact E|split; [reflexivity|]].
  exact (translations_are_trimmed rt context _ r (or_introl E) eq_refl).
Defined.

Lemma rejected_iff_falsy_witness :
  let d := JObject [(js "text", JNumber 0); (js "mode", JString (js "toLeet"))] in
  sample_key <> [] /\ d <> JNull
  /\ exists t r,
       Chat.onRequest (v8 (inr (success JNull))) (post sample_key d) = (t, inr r)
       /\ (status r = 400
           <-> truthy (lookup (Some d) (Name p_text)) = false
               \/ truthy (lookup (Some d) (Name p_mode)) = false).
Proof.
  intros d.
  assert (Hd : d <> JNull) by discriminate.
  split; [exact sample_key_not_empty|split; [exact Hd|]].
  exact (proj1 (rejected_iff_falsy (v8 (inr (success JNull))) sample_key d
                  sample_key_not_empty Hd)).
Defined.

Lemma body_that_is_no_object_witness :
  sample_key <> []
  /\ Single.onRequest (v8 (inr (success JNull)))
       (post sample_key (JArray [JString (js "H3110")]))
     = ([ReadRequestBody],
        inr (json_response (error_object (js "No text provided")) 400)).
Proof.
  split; [exact sample_key_not_empty|].
  assert (Ha : JArray [JString (js "H3110")] <> JNull) by discriminate.
  assert (Ho : forall fields, JArray [JString (js "H3110")] <> JObject fields)
    by discriminate.
  rewrite (proj2 (proj2 (body_that_is_no_object (v8 (inr (success JNull)))
                           sample_key sample_key_not_empty)
                    (JArray [JString (js "H3110")]) Ha Ho)).
  vm_compute. reflexivity.
Defined.

Lemma only_text_and_mode_matter_witness :
  let d1 := request_of "H3110" "toLeet" in
  let d2 := JObject [(js "mode", JString (js "fromLeet"));
                     (js "text", JString (js "H3110"));
                     (js "lang", JString (js "en"))] in
  lookup (Some d1) (Name p_text) = lookup (Some d2) (Name p_text)
  /\ lookup (Some d1) (Name p_mode) <> lookup (Some d2) (Name p_mode)
  /\ Single.onRequest (v8 (inr (success (reply_of (js "Hello")))))
       (mkContext (mkRequest (js "POST") (inr d1)) (mkEnv (Some sample_key)))
     = Single.onRequest (v8 (inr (success (reply_of (js "Hello")))))
         (mkContext (mkRequest (js "POST") (inr d2)) (mkEnv (Some sample_key))).
Proof.
  intros d1 d2.
  assert (H1 : d1 <> JNull) by discriminate.
  assert (H2 : d2 <> JNull) by discriminate.
  assert (Ht : lookup (Some d1) (Name p_text) = lookup (Some d2) (Name p_text))
    by (vm_compute; reflexivity).
  split; [exact Ht|split; [intros E; vm_compute in E; discriminate E|]].
  exact (proj2 (only_text_and_mode_matter (v8 (inr (success (reply_of (js "Hello")))))
                  (js "POST") (mkEnv (Some sample_key)) d1 d2 H1 H2 Ht)).
Defined.

Lemma fetch_rejection_is_500_witness :
  let e := TypeError (js "Network connection lost.") in
  let d := request_of "H3110" "fromLeet" in
  exists prompt,
    Single.onRequest (v8 (inl e)) (post sample_key d)
    = ([ReadRequestBody;
        FetchCall (geminiApiUrl (Some sample_key)) (fetch_init prompt);
        ConsoleError (js "Error in function:") (LogError e)],
       inr (mkResponse (BodyJSON (JObject [(js "error", JString (message e))]))
              500 application_json)).
Proof.
  intros e d.
  destruct (fetch_rejection_is_500 (v8 (inl e)) sample_key d (js "H3110") e)
    as (_ & S); [sample_exchange ..|].
  exact S.
Defined.

Lemma unparseable_success_body_is_500_witness :
  let e := SyntaxError (js "Unexpected token '<'") in
  let up := mkUpstream 200 (js "OK") (inl e) in
  let d := request_of "H3110" "fromLeet" in
  ok up = true
  /\ exists prompt,
       Chat.onRequest (v8 (inr up)) (post sample_key d)
       = ([ReadRequestBody;
           FetchCall (geminiApiUrl (Some sample_key)) (fetch_init prompt);
           ReadUpstreamBody;
           ConsoleError (js "Error in function:") (LogError e)],
          inr (mkResponse (BodyJSON (JObject [(js "error", JString (message e))]))
                 500 application_json)).
Proof.
  intros e up d. split; [vm_compute; reflexivity|].
  destruct (unparseable_success_body_is_500 (v8 (inr up)) sample_key d
              (js "H3110") up e) as (C & _); [sample_exchange ..|].
  exact C.
Defined.

Lemma failure_body_read_or_not_witness :
  let e := SyntaxError (js "Unexpected token '<'") in
  let up := mkUpstream 502 (js "Bad Gateway") (inl e) in
  let d := request_of "H3110" "fromLeet" in
  ok up = false
  /\ snd (Chat.onRequest (v8 (inr up)) (post sample_key d))
     = inr (json_response (error_object (js "Unexpected token '<'")) 500)
  /\ snd (Single.onRequest (v8 (inr up)) (post sample_key d))
     = inr (json_response
              (error_object (js "Gemini API error: 502 Bad Gateway")) 500).
Proof.
  intros e up d. split; [vm_compute; reflexivity|].
  destruct (failure_body_read_or_not (v8 (inr up)) sample_key d (js "H3110") up)
    as (C & (p & S)); [sample_exchange ..|].
  destruct (C e eq_refl) as (q & C').
  rewrite C', S. split; vm_compute; reflexivity.
Defined.

Lemma text_that_is_no_string_is_500_witness :
  let rd :=
    JObject [(js "candidates",
      JArray [JObject [(js "content",
        JObject [(js "parts", JArray [JObject [(js "text", JNumber 42)]])])]])] in
  let up := success rd in
  let d := request_of "H3110" "fromLeet" in
  nested_text rd = Some (JNumber 42)
  /\ snd (Chat.onRequest (v8 (inr up)) (post sample_key d))
     = inr (json_response
              (error_object (js "translation.trim is not a function")) 500)
  /\ snd (Single.onRequest (v8 (inr up)) (post sample_key d))
     = inr (json_response
              (error_object (js "translation.trim is not a function")) 500).
Proof.
  intros rd up d. split; [vm_compute; reflexivity|].
  destruct (text_that_is_no_string_is_500 (v8 (inr up)) sample_key d
              (js "H3110") up rd (JNumber 42)) as (C & S);
    [sample_exchange ..|].
  rewrite C, S. split; vm_compute; reflexivity.
Defined.

Lemma white_space_text_is_empty_translation_witness :
  let up := success (reply_of (js "   ")) in
  let d := request_of "H3110" "fromLeet" in
  forallb is_white_space (js "   ") = true
  /\ snd (Chat.onRequest (v8 (inr up)) (post sample_key d))
     = inr (json_response (translation_object []) 200)
  /\ snd (Single.onRequest (v8 (inr up)) (post sample_key d))
     = inr (json_response (translation_object []) 200).
Proof.
  intros up d. split; [vm_compute; reflexivity|].
  destruct (white_space_text_is_empty_translation (v8 (inr up)) sample_key d
              (js "H3110") up (reply_of (js "   ")) (js "   ")) as (C & S);
    [sample_exchange ..|].
  rewrite C, S. split; vm_compute; reflexivity.
Defined.

Lemma failures_are_logged_witness :
  let rt := v8 (inr quota_exceeded) in
  let context := post sample_key (request_of "H3110" "fromLeet") in
  let r := json_response (error_object (js "quota exceeded")) 500 in
  Chat.onRequest rt context = (fst (Chat.onRequest rt context), inr r)
  /\ status r = 500
  /\ ((fst (Chat.onRequest rt context) = []
       /\ exists msg,
            r = mkResponse (BodyJSON (JObject [(js "error", JString msg)]))
                  500 application_json)
      \/ exists u e,
           fst (Chat.onRequest rt context)
           = u ++ [ConsoleError (js "Error in function:") (LogError e)]
           /\ r = mkResponse (BodyJSON (JObject [(js "error", JString (message e))]))
                    500 application_json).
Proof.
  intros rt context r.
  assert (E : Chat.onRequest rt context = (fst (Chat.onRequest rt context), inr r))
    by (vm_compute; reflexivity).
  split; [exact E|split; [reflexivity|]].
  exact (failures_are_logged rt context _ r (or_introl E) eq_refl).
Defined.

Lemma text_is_printed_into_the_prompt_witness :
  let rt := v8 (inr (success (reply_of (js "leet")))) in
  let d := JObject [(js "text", JNumber 1337); (js "mode", JString (js "fromLeet"))] in
  safe_numbers (JNumber 1337) = true
  /\ to_string rt (JNumber 1337) = inr (js "1337")
  /\ exists rest r,
       Single.onRequest rt (post sample_key d)
       = (ReadRequestBody
          :: FetchCall (geminiApiUrl (Some sample_key))
               (fetch_init (Single.prompt_head ++ [QUOTE] ++ js "1337" ++ [QUOTE]
                            ++ Single.prompt_tail))
          :: rest, r).
Proof.
  intros rt d.
  assert (Hs : to_string rt (JNumber 1337) = inr (js "1337"))
    by (vm_compute; reflexivity).
  split; [vm_compute; reflexivity|split; [exact Hs|]].
  destruct (text_is_printed_into_the_prompt rt sample_key d (JNumber 1337))
    as (P & _); [sample_exchange ..|].
  exact (proj2 (P (js "1337") Hs)).
Defined.

Lemma failure_message_is_printed_witness :
  let eb := JObject [(js "error", JObject [(js "message", JNumber 429)])] in
  let up := mkUpstream 429 (js "Too Many Requests") (inr eb) in
  let d := request_of "H3110" "fromLeet" in
  error_message eb = Some (JNumber 429)
  /\ safe_numbers (JNumber 429) = true
  /\ snd (Chat.onRequest (v8 (inr up)) (post sample_key d))
     = inr (json_response (error_object (js "429")) 500).
Proof.
  intros eb up d.
  split; [vm_compute; reflexivity|split; [vm_compute; reflexivity|]].
  destruct (failure_message_is_printed (v8 (inr up)) sample_key d (js "H3110")
              up eb (JNumber 429)) as (P & _); [sample_exchange ..|].
  rewrite (P (js "429")); vm_compute; reflexivity.
Defined.

(** ** The two handlers on the same success reply *)

Section Siblings.

Variable rt : Runtime.

(** X16. On a success reply whose body parses to a value other than [null],
    the bidirectional handler answers 200 with the fallback whenever the
    nested text is falsy, wherever the path breaks (a link absent or
    [null], an empty list, a text that is [null], [0], [false] or empty),
    and logs the reply with [console.warn] before answering. *)
Theorem chat_falls_back_and_warns (k : jsstring) (d : JSON) (s : jsstring)
    (up : UpstreamResponse) (rd : JSON) :
  k <> [] ->
  lookup (Some d) (Name p_text) = Some (JString s) -> s <> [] ->
  truthy (lookup (Some d) (Name p_mode)) = true ->
  (forall url init, fetch rt url init = inr up) ->
  ok up = true -> up_json up = inr rd ->
  rd <> JNull -> truthy (nested_text rd) = false ->
  exists prompt,
    Chat.onRequest rt (post k d)
    = ([ReadRequestBody;
        FetchCall (geminiApiUrl (Some k)) (fetch_init prompt);
        ReadUpstreamBody;
        ConsoleWarn (js "Unexpected Gemini response structure:") (LogValue rd)],
       inr (mkResponse
              (BodyJSON (JObject [(js "translation",
                 JString (js "Translation not found."))]))
              200 application_json)).
Proof.
  intros Hk Ht Hs Hm Hf Hok Hj Hrd Hn. eexists.
  rewrite (chat_accepts rt k d s Hk Ht Hs Hm), Hf, bind_lift_inr.
  unfold Chat.relay. rewrite Hok. cbn [negb].
  rewrite (response_json_ok up rd _ Hj), (chat_extract_total rt rd Hrd), Hn.
  reflexivity.
Qed.

(** X17. On a success reply whose body parses to a value other than [null],
    the single-direction handler gives the answer of the bidirectional one
    except in two cases, where it answers 500 with the engine's message for
    reading index 0 of [undefined] or [null]: [candidates] is absent or
    [null]; or [candidates[0].content] is there and its [parts] is absent or
    [null]. *)
Theorem single_differs_in_two_cases (k : jsstring) (d : JSON) (s : jsstring)
    (up : UpstreamResponse) (rd : JSON) :
  k <> [] ->
  lookup (Some d) (Name p_text) = Some (JString s) -> s <> [] ->
  truthy (lookup (Some d) (Name p_mode)) = true ->
  (forall url init, fetch rt url init = inr up) ->
  ok up = true -> up_json up = inr rd -> rd <> JNull ->
  let candidates := lookup (Some rd) (Name p_candidates) in
  let content := lookup (lookup candidates (Index 0)) (Name p_content) in
  let parts := lookup content (Name p_parts) in
  (nullish candidates = true ->
   snd (Single.onRequest rt (post k d))
   = inr (mkResponse
            (BodyJSON (JObject [(js "error",
               JString (cannot_read rt candidates (js "0")))]))
            500 application_json))
  /\ (nullish content = false -> nullish parts = true ->
      snd (Single.onRequest rt (post k d))
      = inr (mkResponse
               (BodyJSON (JObject [(js "error",
                  JString (cannot_read rt parts (js "0")))]))
               500 application_json))
  /\ (nullish candidates = false ->
      nullish content = true \/ nullish parts = false ->
      snd (Single.onRequest rt (post k d)) = snd (Chat.onRequest rt (post k d))).
Proof.
  intros Hk Ht Hs Hm Hf Hok Hj Hrd candidates content parts.
  rewrite (single_reply rt k d s up rd Hk Ht Hs Hf Hok Hj).
  rewrite (chat_reply rt k d s up rd Hk Ht Hs Hm Hf Hok Hj).
  rewrite (single_extract_total rt rd Hrd), (chat_extract_total rt rd Hrd).
  cbv zeta. fold candidates. fold content. fold parts.
  rewrite nested_text_unfold. fold candidates. fold content. fold parts.
  split; [|split].
  - intros ->. reflexivity.
  - intros Hc Hp.
    destruct (nullish candidates) eqn:E1.
    { unfold content in Hc. rewrite !(lookup_nullish _ _ E1) in Hc. discriminate. }
    destruct (nullish (lookup candidates (Index 0))) eqn:E2.
    { unfold content in Hc. rewrite (lookup_nullish _ _ E2) in Hc. discriminate. }
    rewrite Hc, Hp. reflexivity.
  - intros -> H.
    destruct (nullish (lookup candidates (Index 0))) eqn:E2.
    { unfold parts, content. rewrite !(lookup_nullish _ (Name p_content) E2).
      reflexivity. }
    destruct (nullish content) eqn:E3.
    { unfold parts. rewrite !(lookup_nullish _ (Name p_parts) E3). reflexivity. }
    destruct H as [H | ->]; [discriminate H|].
    destruct (truthy (lookup (lookup parts (Index 0)) (Name p_text)));
      reflexivity.
Qed.

End Siblings.

Lemma chat_falls_back_and_warns_witness :
  let rd := JObject [(js "candidates", JArray [])] in
  let up := success rd in
  let d := request_of "H3110" "fromLeet" in
  truthy (nested_text rd) = false
  /\ exists prompt,
       Chat.onRequest (v8 (inr up)) (post sample_key d)
       = ([ReadRequestBody;
           FetchCall (geminiApiUrl (Some sample_key)) (fetch_init prompt);
           ReadUpstreamBody;
           ConsoleWarn (js "Unexpected Gemini response structure:") (LogValue rd)],
          inr (mkResponse
                 (BodyJSON (JObject [(js "translation",
                    JString (js "Translation not found."))]))
                 200 application_json)).
Proof.
  intros rd up d. split; [vm_compute; reflexivity|].
  apply (chat_falls_back_and_warns (v8 (inr up)) sample_key d (js "H3110") up rd);
    sample_exchange.
Defined.

Lemma single_differs_in_two_cases_witness :
  let rd := JObject [(js "candidates", JArray [JObject [(js "content", JObject [])]])] in
  let up := success rd in
  let d := request_of "H3110" "fromLeet" in
  snd (Chat.onRequest (v8 (inr up)) (post sample_key d))
  = inr (json_response (translation_object (js "Translation not found.")) 200)
  /\ snd (Single.onRequest (v8 (inr up)) (post sample_key d))
     = inr (json_response
              (error_object (js "Cannot read properties of undefined (reading '0')"))
              500).
Proof.
  intros rd up d. split; [vm_compute; reflexivity|].
  destruct (single_differs_in_two_cases (v8 (inr up)) sample_key d (js "H3110")
              up rd) as (_ & P & _); [sample_exchange ..|].
  rewrite P; vm_compute; reflexivity.
Defined.
